(** * CodeAgneter dashboard: shallow embedding and verified properties

    The dashboard client (chat component, analyzer view, UI helpers) is
    embedded from the JavaScript sources.  The analysis engine and the
    project aggregator run on the server and are not part of the source tree;
    they are modelled from the specification and marked as such. *)

From Stdlib Require Import ZArith QArith Ascii.
From stdpp Require Import gmap strings pretty sorting.

Local Open Scope nat_scope.

(* ===================================================================== *)
(** * Part I: definitions *)
(* ===================================================================== *)

(** ** JavaScript values and string primitives *)

Module Js.

(** The JavaScript values that the embedded functions can produce.  A
    function or object is identified by its standard name. *)
Inductive value : Type :=
| Undefined
| Str (s : string)
| Function (name : string)
| Object (name : string).

(** Result of evaluating an expression that may throw. *)
Inductive completion (A : Type) : Type :=
| Normal (a : A)
| Throw (error : string).
Arguments Normal {A} a.
Arguments Throw {A} error.

(** [ToBoolean]: only [undefined] and the empty string are falsy here. *)
Definition truthy (v : value) : bool :=
  match v with
  | Undefined => false
  | Str EmptyString => false
  | Str _ => true
  | Function _ => true
  | Object _ => true
  end.

(** [a || b]. *)
Definition or_else (a b : value) : value := if truthy a then a else b.

(** [ToString], as applied by template literals and [String.replace]. *)
Definition to_string (v : value) : string :=
  match v with
  | Undefined => "undefined"
  | Str s => s
  | Function name => "function " +:+ name +:+ "() { [native code] }"
  | Object _ => "[object Object]"
  end.

(** Properties every object literal inherits from [Object.prototype]. *)
Definition object_prototype : gmap string value :=
  list_to_map
    [ ("constructor", Function "Object");
      ("__proto__", Object "Object.prototype");
      ("hasOwnProperty", Function "hasOwnProperty");
      ("isPrototypeOf", Function "isPrototypeOf");
      ("propertyIsEnumerable", Function "propertyIsEnumerable");
      ("toLocaleString", Function "toLocaleString");
      ("toString", Function "toString");
      ("valueOf", Function "valueOf");
      ("__defineGetter__", Function "__defineGetter__");
      ("__defineSetter__", Function "__defineSetter__");
      ("__lookupGetter__", Function "__lookupGetter__");
      ("__lookupSetter__", Function "__lookupSetter__") ].

(** [obj[key]] on an object literal with own properties [own]: own
    properties first, then the prototype chain, else [undefined]. *)
Definition get (own : gmap string value) (key : string) : value :=
  match own !! key with
  | Some v => v
  | None =>
      match object_prototype !! key with
      | Some v => v
      | None => Undefined
      end
  end.

(** An object literal whose property values are all strings. *)
Definition literal (props : list (string * string)) : gmap string value :=
  list_to_map (prod_map id Str <$> props).

Definition is_upper (c : ascii) : bool :=
  let n := nat_of_ascii c in (65 <=? n) && (n <=? 90).

Definition lower_char (c : ascii) : ascii :=
  if is_upper c then ascii_of_nat (nat_of_ascii c + 32) else c.

(** [s.toLowerCase()] on the ASCII range; other bytes are kept. *)
Fixpoint toLowerCase (s : string) : string :=
  match s with
  | EmptyString => EmptyString
  | String c s' => String (lower_char c) (toLowerCase s')
  end.

(** [s.split(sep)] for a one-character separator: never empty. *)
Fixpoint split (sep : ascii) (s : string) : list string :=
  match s with
  | EmptyString => [EmptyString]
  | String c s' =>
      if Ascii.eqb c sep then EmptyString :: split sep s'
      else match split sep s' with
           | [] => [String c EmptyString]
           | seg :: segs => String c seg :: segs
           end
  end.

(** [arr.pop()]: the last element, [undefined] (here [None]) when empty. *)
Definition pop {A} (arr : list A) : option A := last arr.

(** Strings are represented by the bytes of their UTF-8 encoding.

    The white space and line terminators of one byte: TAB, LF, VT, FF, CR
    and SPACE. *)
Definition is_space (c : ascii) : bool :=
  let n := nat_of_ascii c in ((9 <=? n) && (n <=? 13)) || (n =? 32).

(** The first byte of a white-space code point of two or three bytes. *)
Definition space_lead (c : ascii) : bool :=
  let n := nat_of_ascii c in
  (n =? 194) || (n =? 225) || (n =? 226) || (n =? 227) || (n =? 239).

(** U+00A0 NO-BREAK SPACE, bytes C2 A0. *)
Definition two_byte_space (c1 c2 : ascii) : bool :=
  (nat_of_ascii c1 =? 194) && (nat_of_ascii c2 =? 160).

(** The white space and line terminators of three bytes: U+1680 (E1 9A
    80), U+2000 to U+200A (E2 80 80 to 8A), U+2028, U+2029 and U+202F (E2
    80 A8, A9, AF), U+205F (E2 81 9F), U+3000 (E3 80 80) and U+FEFF (EF BB
    BF). *)
Definition three_byte_space (c1 c2 c3 : ascii) : bool :=
  let n1 := nat_of_ascii c1 in
  let n2 := nat_of_ascii c2 in
  let n3 := nat_of_ascii c3 in
  ((n1 =? 225) && (n2 =? 154) && (n3 =? 128))
  || ((n1 =? 226) && (n2 =? 128)
      && (((128 <=? n3) && (n3 <=? 138))
          || (n3 =? 168) || (n3 =? 169) || (n3 =? 175)))
  || ((n1 =? 226) && (n2 =? 129) && (n3 =? 159))
  || ((n1 =? 227) && (n2 =? 128) && (n3 =? 128))
  || ((n1 =? 239) && (n2 =? 187) && (n3 =? 191)).

(** [s.trimStart()]: drops every leading white-space or line-terminator
    code point. *)
Fixpoint trimStart (s : string) : string :=
  match s with
  | EmptyString => EmptyString
  | String c1 r1 =>
      if is_space c1 then trimStart r1
      else if negb (space_lead c1) then s
      else
        match r1 with
        | EmptyString => s
        | String c2 r2 =>
            if two_byte_space c1 c2 then trimStart r2
            else
              match r2 with
              | EmptyString => s
              | String c3 r3 =>
                  if three_byte_space c1 c2 c3 then trimStart r3 else s
              end
        end
  end.

(** Whether a string consists of white space and line terminators only. *)
Definition blank (s : string) : bool :=
  match trimStart s with
  | EmptyString => true
  | String _ _ => false
  end.

(** [s.trimEnd()]: a byte is kept unless only white space follows from it
    on. *)
Fixpoint trimEnd (s : string) : string :=
  match s with
  | EmptyString => EmptyString
  | String c s' => if blank s then EmptyString else String c (trimEnd s')
  end.

(** [s.trim()]. *)
Definition trim (s : string) : string := trimEnd (trimStart s).

(** A byte that is part of no white-space code point: an ASCII byte that
    is not white space. *)
Definition solid (c : ascii) : bool :=
  (nat_of_ascii c <? 128) && negb (is_space c).

(** The API value of a [textarea]: every CR LF pair and every other CR of
    the raw value becomes one LF. *)
Fixpoint normalize_newlines (s : string) : string :=
  match s with
  | EmptyString => EmptyString
  | String c r =>
      if nat_of_ascii c =? 13
      then
        String (ascii_of_nat 10)
          match r with
          | String d r' =>
              if nat_of_ascii d =? 10 then normalize_newlines r'
              else normalize_newlines r
          | EmptyString => EmptyString
          end
      else String c (normalize_newlines r)
  end.

(** A property read from parsed JSON, as a template literal prints it:
    absent, [null], an integer that the number type holds exactly (below
    2^53 in magnitude, printed in decimal), a string, or any other value
    with the text its conversion to a string gives. *)
Inductive json : Type :=
| Missing
| Null
| Num (n : Z)
| Text (s : string)
| Other (printed : string).

Definition template_text (v : json) : string :=
  match v with
  | Missing => "undefined"
  | Null => "null"
  | Num n => pretty n
  | Text s => s
  | Other printed => printed
  end.

(** The characters that separate the tokens of a [class] attribute: TAB,
    LF, FF, CR and SPACE. *)
Definition is_class_space (c : ascii) : bool :=
  let n := nat_of_ascii c in
  (n =? 9) || (n =? 10) || (n =? 12) || (n =? 13) || (n =? 32).

Fixpoint starts_with (p s : string) : bool :=
  match p, s with
  | EmptyString, _ => true
  | String a p', String b s' => Ascii.eqb a b && starts_with p' s'
  | String _ _, EmptyString => false
  end.

(** [s.includes(needle)]. *)
Fixpoint includes (needle s : string) : bool :=
  starts_with needle s ||
  match s with
  | EmptyString => false
  | String _ s' => includes needle s'
  end.

(** [s.replace(/[...]/g, f)] for a character class [cls]: every character
    of the class is replaced, left to right, by [ToString] of the callback's
    result on the matched character; all other characters are kept. *)
Fixpoint replace_class (cls : ascii -> bool) (f : string -> value)
    (s : string) : string :=
  match s with
  | EmptyString => EmptyString
  | String c s' =>
      (if cls c then to_string (f (String c EmptyString))
       else String c EmptyString) +:+ replace_class cls f s'
  end.

(** The white-space separated tokens of a string, as in a [class]
    attribute; [cur] is the token being read. *)
Fixpoint tokens_from (cur : string) (s : string) : list string :=
  match s with
  | EmptyString => match cur with EmptyString => [] | _ => [cur] end
  | String c s' =>
      if is_class_space c then
        match cur with
        | EmptyString => tokens_from EmptyString s'
        | _ => cur :: tokens_from EmptyString s'
        end
      else tokens_from (cur +:+ String c EmptyString) s'
  end.

Definition tokens (s : string) : list string := tokens_from EmptyString s.

(** The concatenation of a list of strings. *)
Definition concat (l : list string) : string :=
  foldr String.append EmptyString l.

(** Characters of a string, in order. *)
Fixpoint chars (s : string) : list ascii :=
  match s with
  | EmptyString => []
  | String c s' => c :: chars s'
  end.

End Js.

(** ** The page: chat transcript, input field, local storage, network *)

Module Dom.

(** What a [.message-content] element holds: text set through
    [textContent], or markup set through [innerHTML]. *)
Inductive content : Type :=
| TextContent (text : string)
| InnerHTML (html : string).

(** A [.message] element of the transcript.  [followups] are the rows of
    suggestion buttons appended to it. *)
Record message_el : Type := {
  className : string;
  body : content;
  followups : list (list string)
}.

(** [el.classList]. *)
Definition classList (el : message_el) : list string :=
  Js.tokens (className el).

(** A record of the stored chat history. *)
Record history_record : Type := {
  role : string;
  content_text : string;
  timestamp : string
}.

Record settings : Type := { autoSave : bool }.

(** [localStorage], restricted to the two keys the chat uses.  The store
    keeps the decoded values: [JSON.parse] after [JSON.stringify] is the
    identity on these records. *)
Record storage : Type := {
  chatHistory : option (list history_record);
  chatSettings : option settings
}.

(** The observable state of the page around the chat. *)
Record page : Type := {
  input_value : string;            (* #chat-input raw value *)
  input_height : string;           (* #chat-input style.height *)
  transcript : list message_el;    (* .message children of #chat-messages *)
  spinner : option string;         (* display of #loading-spinner, if any *)
  send_disabled : bool;            (* #send-btn disabled *)
  local_storage : storage;
  requests : list string           (* bodies POSTed to /chat, oldest first *)
}.

(** [chatInput.value] as read: [#chat-input] is a [textarea], whose value
    getter normalises the line breaks of the raw value. *)
Definition value (p : page) : string := Js.normalize_newlines (input_value p).

(** [chatInput.value = v] and [chatInput.style.height = h]: the raw value
    is stored as given. *)
Definition set_input (v h : string) (p : page) : page :=
  {| input_value := v; input_height := h; transcript := transcript p;
     spinner := spinner p; send_disabled := send_disabled p;
     local_storage := local_storage p; requests := requests p |}.

Definition set_transcript (t : list message_el) (p : page) : page :=
  {| input_value := input_value p; input_height := input_height p;
     transcript := t; spinner := spinner p;
     send_disabled := send_disabled p;
     local_storage := local_storage p; requests := requests p |}.

Definition set_spinner (s : option string) (p : page) : page :=
  {| input_value := input_value p; input_height := input_height p;
     transcript := transcript p; spinner := s;
     send_disabled := send_disabled p;
     local_storage := local_storage p; requests := requests p |}.

Definition set_send_disabled (b : bool) (p : page) : page :=
  {| input_value := input_value p; input_height := input_height p;
     transcript := transcript p; spinner := spinner p;
     send_disabled := b;
     local_storage := local_storage p; requests := requests p |}.

Definition set_storage (s : storage) (p : page) : page :=
  {| input_value := input_value p; input_height := input_height p;
     transcript := transcript p; spinner := spinner p;
     send_disabled := send_disabled p;
     local_storage := s; requests := requests p |}.

Definition set_requests (r : list string) (p : page) : page :=
  {| input_value := input_value p; input_height := input_height p;
     transcript := transcript p; spinner := spinner p;
     send_disabled := send_disabled p;
     local_storage := local_storage p; requests := r |}.

(** What the browser contributes to the chat and is not fixed by the
    repository: the text a browser extracts from markup assigned through
    [innerHTML] ([html_text]) and the readings of the clock, one per call
    of [new Date()] ([clock]).  [parseMarkdown] stands for
    [UIManager.parseMarkdown], a cascade of regular-expression rewrites
    whose result only reaches the properties below through [html_text]. *)
Record browser : Type := {
  parseMarkdown : string -> string;
  html_text : string -> string;
  clock : nat -> string
}.

(** Whether the content of a message was set through [textContent]: such
    a message holds no markup, in particular no nested element of class
    [message]. *)
Definition text_only (el : message_el) : bool :=
  match body el with
  | TextContent _ => true
  | InnerHTML _ => false
  end.

(** [el.querySelector('.message-content').textContent]. *)
Definition textContent (b : browser) (el : message_el) : string :=
  match body el with
  | TextContent text => text
  | InnerHTML html => html_text b html
  end.

(** What [api.sendMessage] comes back with: a parsed response whose
    status is ['success'], a parsed response with another status, or a
    rejected promise (network failure, HTTP status outside 2xx). *)
Inductive api_outcome : Type :=
| Success (response : string)
| Failure (message : string)
| Rejected (message : string).

End Dom.

(** ** [utils/ui.js] *)

Module Ui.
Import Dom.

Definition quot : ascii := ascii_of_nat 34.
Definition apos : ascii := ascii_of_nat 39.

(** The [map] object literal of [escapeHtml]. *)
Definition escape_map : gmap string Js.value :=
  Js.literal
    [ ("&", "&amp;");
      ("<", "&lt;");
      (">", "&gt;");
      (String quot EmptyString, "&quot;");
      (String apos EmptyString, "&#039;") ].

(** The character class of the regular expression in [escapeHtml]. *)
Definition escape_class (c : ascii) : bool :=
  Ascii.eqb c "&" || Ascii.eqb c "<" || Ascii.eqb c ">" ||
  Ascii.eqb c quot || Ascii.eqb c apos.

(** [escapeHtml(text)]. *)
Definition escapeHtml (text : string) : string :=
  Js.replace_class escape_class (fun m => Js.get escape_map m) text.

(** The replacement the documentation of [escapeHtml] gives for each
    character: the entity of a special character, any other character
    itself. *)
Definition entity (c : ascii) : string :=
  if Ascii.eqb c "&" then "&amp;"
  else if Ascii.eqb c "<" then "&lt;"
  else if Ascii.eqb c ">" then "&gt;"
  else if Ascii.eqb c quot then "&quot;"
  else if Ascii.eqb c apos then "&#039;"
  else String c EmptyString.

(** The characters that must not survive escaping. *)
Definition markup_char (c : ascii) : bool :=
  Ascii.eqb c "<" || Ascii.eqb c ">" || Ascii.eqb c quot || Ascii.eqb c apos.

(** [UIManager.showLoading()]. *)
Definition showLoading (p : page) : page :=
  match spinner p with
  | Some _ => set_spinner (Some "flex") p
  | None => p
  end.

(** [UIManager.hideLoading()]. *)
Definition hideLoading (p : page) : page :=
  match spinner p with
  | Some _ => set_spinner (Some "none") p
  | None => p
  end.

(** The element [UIManager.addChatMessage(content, role)] builds. *)
Definition message_element (b : browser) (content role : string)
    : message_el :=
  {| className := "message " +:+ role;
     body := if Js.includes "```" content
             then InnerHTML (parseMarkdown b content)
             else TextContent content;
     followups := [] |}.

(** [UIManager.addChatMessage(content, role)]: appends to the transcript
    (scrolling is not observable here). *)
Definition addChatMessage (b : browser) (content role : string)
    (p : page) : page :=
  set_transcript (transcript p ++ [message_element b content role]) p.

End Ui.

(** ** [ChatComponent] *)

Module ChatComponent.
Import Dom.

(** The [languages] table of [getLanguageFromFile]. *)
Definition languages : gmap string Js.value :=
  Js.literal
    [ ("py", "python"); ("js", "javascript"); ("jsx", "javascript");
      ("ts", "typescript"); ("tsx", "typescript"); ("java", "java");
      ("cpp", "cpp"); ("cc", "cpp"); ("c", "c"); ("h", "c");
      ("go", "go"); ("rs", "rust"); ("sql", "sql");
      ("html", "html"); ("css", "css"); ("json", "json");
      ("yaml", "yaml"); ("yml", "yaml") ].

(** [getLanguageFromFile(filename)]. *)
Definition getLanguageFromFile (filename : string)
    : Js.completion Js.value :=
  match Js.pop (Js.split "." filename) with
  | None => Js.Throw "TypeError"
  | Some last =>
      let ext := Js.toLowerCase last in
      Js.Normal (Js.or_else (Js.get languages ext) (Js.Str "text"))
  end.

(** The extension [getLanguageFromFile] looks up, for a file name on
    which [pop] finds a piece. *)
Definition extension_of (filename : string) : string :=
  Js.toLowerCase (default EmptyString (Js.pop (Js.split "." filename))).

(** The record [saveChatHistory] pushes for the [i]-th message. *)
Definition saved_record (b : browser) (i : nat) (msg : message_el)
    : history_record :=
  {| role := if bool_decide ("user" ∈ classList msg)
             then "user" else "assistant";
     content_text := textContent b msg;
     timestamp := clock b i |}.

(** [saveChatHistory()], for a transcript whose messages hold no markup
    with nested elements of class [message]: [querySelectorAll] then meets
    exactly the messages of the transcript, each with its
    [.message-content]. *)
Definition saveChatHistory (b : browser) (p : page) : page :=
  let messages := imap (saved_record b) (transcript p) in
  set_storage
    {| chatHistory := Some messages;
       chatSettings := chatSettings (local_storage p) |} p.

(** [loadChatHistory()]. *)
Definition loadChatHistory (b : browser) (p : page) : page :=
  let settings :=
    default {| autoSave := true |} (chatSettings (local_storage p)) in
  if negb (autoSave settings) then p
  else
    let history := default [] (chatHistory (local_storage p)) in
    match history with
    | [] => p
    | _ =>
        fold_left
          (fun q msg => Ui.addChatMessage b (content_text msg) (role msg) q)
          history (set_transcript [] p)
    end.

(** [sendMessage()], with the outcome of the API call it awaits. *)
Definition sendMessage (b : browser) (outcome : api_outcome) (p : page)
    : page :=
  let message := Js.trim (value p) in
  if negb (Js.truthy (Js.Str message)) then p
  else
    let p := Ui.addChatMessage b message "user" p in
    let p := set_input "" "auto" p in
    let p := Ui.showLoading p in
    let p := set_requests (requests p ++ [message]) p in
    let p :=
      match outcome with
      | Success response =>
          saveChatHistory b (Ui.addChatMessage b response "assistant" p)
      | Failure msg =>
          Ui.addChatMessage b ("Error: " +:+ msg) "system" p
      | Rejected msg =>
          Ui.addChatMessage b ("Connection error: " +:+ msg) "system" p
      end in
    Ui.hideLoading p.

End ChatComponent.

(** ** [ChatComponentEnhanced] *)

Module ChatComponentEnhanced.
Import Dom.

(** The fields of the component that [sendMessage] reads and writes.
    [currentMessageElement] points into the transcript. *)
Record component : Type := {
  isStreaming : bool;
  currentMessageElement : option nat
}.

Definition languages : gmap string Js.value :=
  Js.literal
    [ ("py", "python"); ("js", "javascript"); ("jsx", "javascript");
      ("ts", "typescript"); ("tsx", "typescript"); ("java", "java");
      ("cpp", "cpp"); ("cc", "cpp"); ("c", "c"); ("h", "c");
      ("go", "go"); ("rs", "rust"); ("sql", "sql");
      ("html", "html"); ("css", "css"); ("json", "json");
      ("yaml", "yaml"); ("yml", "yaml") ].

(** [getLanguageFromFile(filename)]. *)
Definition getLanguageFromFile (filename : string)
    : Js.completion Js.value :=
  match Js.pop (Js.split "." filename) with
  | None => Js.Throw "TypeError"
  | Some last =>
      let ext := Js.toLowerCase last in
      Js.Normal (Js.or_else (Js.get languages ext) (Js.Str "text"))
  end.

(** [createMessageElement(role)]: appends an empty message and makes it
    the current one. *)
Definition createMessageElement (role : string) (s : component * page)
    : component * page :=
  let '(c, p) := s in
  let el := {| className := "message " +:+ role;
               body := TextContent "";
               followups := [] |} in
  ({| isStreaming := isStreaming c;
      currentMessageElement := Some (length (transcript p)) |},
   set_transcript (transcript p ++ [el]) p).

(** Assignment to [this.currentMessageElement.textContent] or
    [.innerHTML]. *)
Definition set_current_body (c : component) (new_body : content)
    (p : page) : page :=
  match currentMessageElement c with
  | Some i =>
      match transcript p !! i with
      | Some el =>
          set_transcript
            (<[i := {| className := className el; body := new_body;
                       followups := followups el |}]> (transcript p)) p
      | None => p
      end
  | None => p
  end.

(** [getStreamingResponse(message)], from its first statement to the end of
    its [finally] block: [isStreaming] is raised while the call is awaited
    and lowered again.  [streamText] re-renders the element after every
    word; what remains is its last assignment, the markup of the words each
    followed by a space. *)
Definition getStreamingResponse (b : browser) (outcome : api_outcome)
    (message : string) (s : component * page) : component * page :=
  let '(c, p) := s in
  let p := set_send_disabled true p in
  let p := set_requests (requests p ++ [message]) p in
  let p :=
    match outcome with
    | Success response =>
        set_current_body c (InnerHTML (parseMarkdown b (response +:+ " "))) p
    | Failure msg => set_current_body c (TextContent ("Error: " +:+ msg)) p
    | Rejected msg => set_current_body c (TextContent ("Error: " +:+ msg)) p
    end in
  ({| isStreaming := false;
      currentMessageElement := currentMessageElement c |}, p).

(** [showFollowUpSuggestions()]; [picked] are the two suggestions the
    random shuffle selects. *)
Definition showFollowUpSuggestions (picked : list string)
    (s : component * page) : component * page :=
  let '(c, p) := s in
  match currentMessageElement c with
  | Some i =>
      match transcript p !! i with
      | Some el =>
          (c, set_transcript
                (<[i := {| className := className el; body := body el;
                           followups := followups el ++ [picked] |}]>
                   (transcript p)) p)
      | None => (c, p)
      end
  | None => (c, p)
  end.

(** The record [saveChatHistory] pushes for the [i]-th message. *)
Definition saved_record (b : browser) (i : nat) (msg : message_el)
    : history_record :=
  {| role := if bool_decide ("user" ∈ classList msg)
             then "user" else "assistant";
     content_text := textContent b msg;
     timestamp := clock b i |}.

(** [saveChatHistory()], for a transcript whose messages hold no markup
    with nested elements of class [message]: [querySelectorAll] then meets
    exactly the messages of the transcript, each with its
    [.message-content]. *)
Definition saveChatHistory (b : browser) (p : page) : page :=
  let messages := imap (saved_record b) (transcript p) in
  set_storage
    {| chatHistory := Some messages;
       chatSettings := chatSettings (local_storage p) |} p.

(** [loadChatHistory()]. *)
Definition loadChatHistory (b : browser) (p : page) : page :=
  let settings :=
    default {| autoSave := true |} (chatSettings (local_storage p)) in
  if negb (autoSave settings) then p
  else
    let history := default [] (chatHistory (local_storage p)) in
    match history with
    | [] => p
    | _ =>
        fold_left
          (fun q msg => Ui.addChatMessage b (content_text msg) (role msg) q)
          history (set_transcript [] p)
    end.

(** [sendMessage()], with the outcome of the API call it awaits and the
    follow-up suggestions picked. *)
Definition sendMessage (b : browser) (outcome : api_outcome)
    (picked : list string) (s : component * page) : component * page :=
  let '(c, p) := s in
  let message := Js.trim (value p) in
  if negb (Js.truthy (Js.Str message)) || isStreaming c then s
  else
    let p := Ui.addChatMessage b message "user" p in
    let p := set_input "" "auto" p in
    let '(c, p) := createMessageElement "assistant" (c, p) in
    let p := Ui.showLoading p in
    let '(c, p) := getStreamingResponse b outcome message (c, p) in
    let '(c, p) := showFollowUpSuggestions picked (c, p) in
    let p := saveChatHistory b p in
    let p := Ui.hideLoading p in
    (c, set_send_disabled false p).

End ChatComponentEnhanced.

(** ** [AnalyzerComponent] *)

Module Analyzer.

(** An entry of [response.issues] as parsed from the JSON response. *)
Record issue : Type := {
  file : option string;
  line : option nat;
  severity : string;
  message : string
}.

Record summary : Type := {
  files_analyzed : nat;
  total_lines : nat;
  total_issues : nat;
  languages : list (string * nat)     (* in [Object.entries] order *)
}.

(** The response of [/api/analyze-project]. *)
Record response : Type := {
  project : string;
  response_summary : summary;
  issues : option (list issue);
  recommendations : option (list string)
}.

(** A table row of the markup, given by the values interpolated into the
    row template, in template order. *)
Record row : Type := {
  cell_file : string;
  cell_line : string;
  badge_color : string;
  badge_text : string;
  cell_message : string
}.

(** The markup assigned to [#analysis-results], given by the values
    interpolated into its templates.  [issues_section] is present when the
    issue list is not empty and carries the count of its heading. *)
Record view : Type := {
  heading_project : string;
  shown_files : string;
  shown_lines : string;
  shown_issues : string;
  language_items : list (string * string);
  issues_section : option (nat * list row);
  recommendation_items : list string
}.

(** The [severityColor] object literal. *)
Definition severityColor : gmap string Js.value :=
  Js.literal
    [ ("critical", "#E74C3C"); ("warning", "#F39C12"); ("info", "#3498DB") ].

(** [issues.slice(0, n)]. *)
Definition slice_from_start {A} (n : nat) (l : list A) : list A := take n l.

(** The body of the [forEach] callback: the row rendered for one issue. *)
Definition render_row (i : issue) : row :=
  {| cell_file :=
       match file i with
       | Some (String c f) => String c f
       | _ => "unknown"
       end;
     cell_line :=
       match line i with
       | Some (S n) => pretty (S n)
       | _ => "-"
       end;
     badge_color :=
       Js.to_string
         (Js.or_else (Js.get severityColor (severity i)) (Js.Str "#666"));
     badge_text := severity i;
     cell_message := message i |}.

(** The rows of the issue table. *)
Definition issue_rows (l : list issue) : list row :=
  render_row <$> slice_from_start 20 l.

(** [displayProjectAnalysis(response)]: the new content of the
    [#analysis-results] container, or [None] when the page has no such
    container and the method returns without rendering. *)
Definition displayProjectAnalysis (container : bool) (r : response)
    : option view :=
  if negb container then None
  else
    let s := response_summary r in
    let l := default [] (issues r) in
    Some
      {| heading_project := project r;
         shown_files := pretty (files_analyzed s);
         shown_lines := pretty (total_lines s);
         shown_issues := pretty (total_issues s);
         language_items := prod_map id pretty <$> languages s;
         issues_section :=
           if 0 <? length l then Some (length l, issue_rows l) else None;
         recommendation_items := default [] (recommendations r) |}.

End Analyzer.

(** ** The analysis engine (server side) *)

Module Engine.

(** Modelled from the spec: the severity of an issue, one of three values
    (section 3).  The engine behind [/api/analyze] is not in the source
    tree. *)
Inductive Severity : Type := Critical | Warning | Info.

(** Modelled from the spec: an Issue (section 3); line and file path are
    optional. *)
Record Issue : Type := {
  severity : Severity;
  line : option nat;
  message : string;
  file : option string
}.

(** Modelled from the spec: the Metrics of a file (section 3); the mean
    length is a rational number. *)
Record Metrics : Type := {
  total_lines : nat;
  non_empty_lines : nat;
  comment_lines : nat;
  average_line_length : Q
}.

(** Modelled from the spec: a detector is one independent rule that scans
    the text and yields issues (glossary).  [rule lang text n l] looks at
    line [l], the [n]-th of [text], and may report one issue; [suggestion]
    is the fixed string offered when the detector fired. *)
Record Detector : Type := {
  category : string;
  rule : string -> list string -> nat -> string -> option (Severity * string);
  suggestion : string
}.

(** Modelled from the spec: the constants and collaborators the engine is
    configured with (section 4.1, step 3; section 6; section 9): severity
    weights and documentation bonus (penalty and reward points, natural
    numbers), the density threshold of the bonus (a fraction), the
    language detector, the comment prefix of a language, the text decoder
    and the battery of detectors in declaration order. *)
Record Config : Type := {
  weight_critical : nat;
  weight_warning : nat;
  weight_info : nat;
  bonus_points : nat;
  density_num : nat;
  density_den : nat;
  language_of : string -> option string;
  comment_prefix : string -> option string;
  decode : string -> option string;
  detectors : list Detector
}.

(** Modelled from the spec: an Analysis (sections 3 and 6). *)
Record Analysis : Type := {
  filename : string;
  language : string;
  quality_score : Z;
  summary : string;
  metrics : Metrics;
  issues : list Issue;
  suggestions : list string
}.

(** Modelled from the spec: the error kinds of section 7. *)
Inductive Error : Type := InputError | NotFoundError.

(** Modelled from the spec: score bands of step 5. *)
Inductive Band : Type := Good | Fair | NeedsImprovement | Poor.

(** Modelled from the spec: the line feed that separates lines. *)
Definition LF : ascii := ascii_of_nat 10.

(** Modelled from the spec: the lines of a text.  Convention chosen for
    the line count (section 8): the text is cut at every line feed and a
    final empty piece is not a line, so the empty text has no lines. *)
Definition text_lines (content : string) : list string :=
  let pieces := Js.split LF content in
  match last pieces with
  | Some EmptyString => removelast pieces
  | _ => pieces
  end.

(** Modelled from the spec: a line is non-empty unless it is white space
    only. *)
Definition non_empty (l : string) : bool :=
  negb (String.eqb (Js.trim l) EmptyString).

(** Modelled from the spec: a line is a comment when, after its
    indentation, it starts with the comment prefix of the language; with
    no prefix (plaintext mode) comment detection is disabled. *)
Definition is_comment (prefix : option string) (l : string) : bool :=
  match prefix with
  | Some p => Js.starts_with p (Js.trimStart l)
  | None => false
  end.

(** Modelled from the spec: the counters of the single pass over the lines
    (step 1): lines, non-empty lines, comment lines, characters on
    non-empty lines. *)
Definition count_line (prefix : option string)
    (acc : nat * nat * nat * nat) (l : string) : nat * nat * nat * nat :=
  let '(total, filled, comments, chars) := acc in
  (S total,
   if non_empty l then S filled else filled,
   if is_comment prefix l then S comments else comments,
   if non_empty l then chars + String.length l else chars).

(** Modelled from the spec: Metrics by a single pass (step 1); the mean is
    zero when there is no non-empty line. *)
Definition compute_metrics (prefix : option string) (ls : list string)
    : Metrics :=
  let '(total, filled, comments, chars) :=
    fold_left (count_line prefix) ls (0, 0, 0, 0) in
  {| total_lines := total;
     non_empty_lines := filled;
     comment_lines := comments;
     average_line_length :=
       match filled with
       | O => 0%Q
       | S _ => Qmake (Z.of_nat chars) (Pos.of_nat filled)
       end |}.

(** Modelled from the spec: one detector scanning the remaining lines
    [rest] from line number [n] on (step 2). *)
Fixpoint scan (d : Detector) (lang : string) (text : list string)
    (n : nat) (rest : list string) : list Issue :=
  match rest with
  | [] => []
  | l :: rest' =>
      match rule d lang text n l with
      | Some (sev, msg) =>
          {| severity := sev; line := Some n; message := msg; file := None |}
            :: scan d lang text (S n) rest'
      | None => scan d lang text (S n) rest'
      end
  end.

(** Modelled from the spec: a detector run over a whole text; lines are
    numbered from 1. *)
Definition run_detector (d : Detector) (lang : string) (text : list string)
    : list Issue :=
  scan d lang text 1 text.

(** Modelled from the spec: the battery run in declaration order, each
    issue paired with the position of its detector, counted from [k]. *)
Fixpoint run_battery (k : nat) (ds : list Detector) (lang : string)
    (text : list string) : list (nat * Issue) :=
  match ds with
  | [] => []
  | d :: ds' =>
      (pair k <$> run_detector d lang text)
        ++ run_battery (S k) ds' lang text
  end.

(** Modelled from the spec: the weight of a severity (step 3). *)
Definition severity_weight (cfg : Config) (s : Severity) : nat :=
  match s with
  | Critical => weight_critical cfg
  | Warning => weight_warning cfg
  | Info => weight_info cfg
  end.

(** Modelled from the spec: the documentation bonus, granted when the
    share of comment lines among the non-empty lines is above the
    threshold [density_num / density_den] (step 3). *)
Definition documentation_bonus (cfg : Config) (m : Metrics) : nat :=
  if density_num cfg * non_empty_lines m <? comment_lines m * density_den cfg
  then bonus_points cfg else 0.

(** Modelled from the spec: [clamp x lo hi] brings [x] into the range from
    [lo] to [hi] (step 3). *)
Definition clamp (x lo hi : Z) : Z := Z.max lo (Z.min x hi).

(** Modelled from the spec: the weight of one issue taken off the running
    score (step 3). *)
Definition deduct (cfg : Config) (acc : Z) (i : Issue) : Z :=
  (acc - Z.of_nat (severity_weight cfg (severity i)))%Z.

(** Modelled from the spec: the score (step 3), computed by deducting the
    weight of one issue after the other from 100, adding the bonus and
    clamping. *)
Definition score (cfg : Config) (m : Metrics) (l : list Issue) : Z :=
  clamp (fold_left (deduct cfg) l 100%Z
         + Z.of_nat (documentation_bonus cfg m)) 0 100.



(** Modelled from the spec: the band of a score (step 5). *)
Definition band (s : Z) : Band :=
  if (80 <=? s)%Z then Good
  else if (60 <=? s)%Z then Fair
  else if (40 <=? s)%Z then NeedsImprovement
  else Poor.

(** Modelled from the spec: the name of a band in the summary (step 5). *)
Definition band_label (b : Band) : string :=
  match b with
  | Good => "good"
  | Fair => "fair"
  | NeedsImprovement => "needs improvement"
  | Poor => "poor"
  end.

(** Modelled from the spec: the one-line summary naming file, language and
    band (step 5). *)
Definition summary_line (name lang : string) (s : Z) : string :=
  name +:+ " (" +:+ lang +:+ "): " +:+ band_label (band s).

(** Modelled from the spec: the suggestions of the detectors that fired,
    in declaration order, one per detector (step 4). *)
Fixpoint suggestions_of (k : nat) (ds : list Detector)
    (found : list (nat * Issue)) : list string :=
  match ds with
  | [] => []
  | d :: ds' =>
      (if existsb (fun e => fst e =? k) found then [suggestion d] else [])
        ++ suggestions_of (S k) ds' found
  end.

(** Modelled from the spec: the language of a file and its comment prefix;
    when the language cannot be inferred the engine works in plaintext
    mode with comment detection disabled (section 4.1). *)
Definition language_mode (cfg : Config) (name : string)
    : string * option string :=
  match language_of cfg name with
  | Some lang => (lang, comment_prefix cfg lang)
  | None => ("plaintext", None)
  end.

(** Modelled from the spec: the issues found in a text, each with the
    position of the detector that reported it. *)
Definition found_issues (cfg : Config) (name content : string)
    : list (nat * Issue) :=
  run_battery 0 (detectors cfg) (fst (language_mode cfg name))
    (text_lines content).

(** Modelled from the spec: single-file analyze on decoded text (section
    4.1, steps 1 to 5). *)
Definition analyze (cfg : Config) (name content : string) : Analysis :=
  let '(lang, prefix) := language_mode cfg name in
  let text := text_lines content in
  let m := compute_metrics prefix text in
  let found := run_battery 0 (detectors cfg) lang text in
  let l := snd <$> found in
  let s := score cfg m l in
  {| filename := name;
     language := lang;
     quality_score := s;
     summary := summary_line name lang s;
     metrics := m;
     issues := l;
     suggestions := suggestions_of 0 (detectors cfg) found |}.





(** Modelled from the spec: single-file analyze on the raw content; content
    that does not decode as text is an InputError (section 4.1). *)
Definition analyze_file (cfg : Config) (name raw : string)
    : Error + Analysis :=
  match decode cfg raw with
  | Some content => inr (analyze cfg name content)
  | None => inl InputError
  end.

(** Modelled from the spec: the line number of an issue, 0 when it has
    none. *)
Definition line_number (i : Issue) : nat := default 0 (line i).

(** Modelled from the spec: the key issues are ordered by, detector
    position then line number. *)
Definition issue_key (e : nat * Issue) : nat * nat :=
  (fst e, line_number (snd e)).

(** Modelled from the spec: the order of the keys: detector position
    first, then line number. *)
Definition key_lt (a b : nat * nat) : Prop :=
  fst a < fst b \/ (fst a = fst b /\ snd a < snd b).

End Engine.

(** ** The project aggregator (server side) *)

Module Project.
Import Engine.

(** Modelled from the spec: the summary of a ProjectAnalysis (section 6);
    the aggregator behind [/api/analyze-project] is not in the source
    tree. *)
Record Summary : Type := {
  files_analyzed : nat;
  total_lines : nat;
  total_issues : nat;
  languages : gmap string nat
}.

(** Modelled from the spec: a ProjectAnalysis (sections 3 and 6), with the
    count of skipped files that section 7 asks to report. *)
Record ProjectAnalysis : Type := {
  project : string;
  summary : Summary;
  issues : list Issue;
  recommendations : list string;
  files_skipped : nat
}.

(** Modelled from the spec: the aggregate statistics the recommendation
    rules look at (section 4.2). *)
Record Stats : Type := {
  stat_files : nat;
  stat_issues : nat;
  stat_critical_files : nat
}.

(** Modelled from the spec: what the aggregator is given besides the
    engine configuration: the file-system walker (the files under a path
    in discovery order, each with its raw content, or nothing when the
    path does not exist), the display cap on the issue list and the fixed
    recommendation rules (section 4.2). *)
Record Setup : Type := {
  walk : string -> option (list (string * string));
  issue_cap : nat;
  rules : list ((Stats -> bool) * string)
}.

(** Modelled from the spec: the running totals of a scan. *)
Record Totals : Type := {
  seen_files : nat;
  seen_lines : nat;
  seen_issues : list Issue;
  seen_languages : gmap string nat;
  seen_critical_files : nat;
  skipped : nat
}.

(** Modelled from the spec: the totals before the first file. *)
Definition no_totals : Totals :=
  {| seen_files := 0; seen_lines := 0; seen_issues := [];
     seen_languages := ∅; seen_critical_files := 0; skipped := 0 |}.

(** Modelled from the spec: an issue tagged with its source file path. *)
Definition tag (path : string) (i : Issue) : Issue :=
  {| severity := severity i; line := line i; message := message i;
     file := Some path |}.

(** Modelled from the spec: an issue of severity critical. *)
Definition is_critical (i : Issue) : bool :=
  match severity i with Critical => true | _ => false end.

(** Modelled from the spec: one more file of language [lang]. *)
Definition count_language (lang : string) (m : gmap string nat)
    : gmap string nat :=
  <[lang := S (default 0 (m !! lang))]> m.

(** Modelled from the spec: one file of the scan (section 4.2): a file that
    does not decode is skipped and not counted; otherwise the engine runs
    and its results are accumulated. *)
Definition add_file (cfg : Config) (t : Totals) (f : string * string)
    : Totals :=
  let '(path, raw) := f in
  match analyze_file cfg path raw with
  | inl _ =>
      {| seen_files := seen_files t; seen_lines := seen_lines t;
         seen_issues := seen_issues t; seen_languages := seen_languages t;
         seen_critical_files := seen_critical_files t;
         skipped := S (skipped t) |}
  | inr a =>
      {| seen_files := S (seen_files t);
         seen_lines := seen_lines t + Engine.total_lines (metrics a);
         seen_issues := seen_issues t ++ (tag path <$> Engine.issues a);
         seen_languages := count_language (language a) (seen_languages t);
         seen_critical_files :=
           if existsb is_critical (Engine.issues a)
           then S (seen_critical_files t) else seen_critical_files t;
         skipped := skipped t |}
  end.

(** Modelled from the spec: the scan over the discovered files. *)
Definition scan_files (cfg : Config) (files : list (string * string))
    : Totals :=
  fold_left (add_file cfg) files no_totals.

(** Modelled from the spec: the recommendations whose rule holds, in rule
    order. *)
Definition recommend (rs : list ((Stats -> bool) * string)) (s : Stats)
    : list string :=
  snd <$> filter (fun r => fst r s = true) rs.

(** Modelled from the spec: the sum of the per-language counts. *)
Definition language_total (m : gmap string nat) : nat :=
  map_fold (fun _ n acc => n + acc) 0 m.

(** Modelled from the spec: the ProjectAnalysis built from the totals. *)
Definition report (su : Setup) (path : string) (t : Totals)
    : ProjectAnalysis :=
  {| project := path;
     summary :=
       {| files_analyzed := seen_files t;
          total_lines := seen_lines t;
          total_issues := length (seen_issues t);
          languages := seen_languages t |};
     issues := take (issue_cap su) (seen_issues t);
     recommendations :=
       recommend (rules su)
         {| stat_files := seen_files t;
            stat_issues := length (seen_issues t);
            stat_critical_files := seen_critical_files t |};
     files_skipped := skipped t |}.

(** Modelled from the spec: project analyze (sections 4.2, 6 and 7): a path
    that does not exist is a NotFoundError. *)
Definition analyze_project (cfg : Config) (su : Setup) (path : string)
    : Error + ProjectAnalysis :=
  match walk su path with
  | None => inl NotFoundError
  | Some files => inr (report su path (scan_files cfg files))
  end.

End Project.

(** ** A reference configuration *)

Module Reference.
Import Engine.

(** Modelled from the spec: the language detector as a static extension
    table (section 6); a name without a known extension has no language. *)
Definition extension_table : gmap string string :=
  list_to_map
    [ ("py", "python"); ("js", "javascript"); ("ts", "typescript");
      ("java", "java"); ("c", "c"); ("go", "go"); ("rs", "rust") ].

(** Modelled from the spec: the language of a file name, by the extension
    after its last dot. *)
Definition language_of (name : string) : option string :=
  match Js.split "." name with
  | [] | [_] => None
  | pieces => last pieces ≫= fun ext => extension_table !! Js.toLowerCase ext
  end.

(** Modelled from the spec: [#] for Python-like languages, [//] for C-like
    ones (step 1). *)
Definition comment_prefix (lang : string) : option string :=
  if String.eqb lang "python" then Some "#" else Some "//".

(** Modelled from the spec: a strict 7-bit decoder; content with a byte
    outside the ASCII range or a NUL byte is binary. *)
Definition is_text_byte (c : ascii) : bool :=
  let n := nat_of_ascii c in (1 <=? n) && (n <? 128).

(** Modelled from the spec: decoding fails on binary content. *)
Definition decode (raw : string) : option string :=
  if forallb is_text_byte (Js.chars raw) then Some raw else None.

(** Modelled from the spec: the name an import statement binds. *)
Definition imported_name (l : string) : option string :=
  let t := Js.trim l in
  if Js.starts_with "import " t
  then Some (Js.trim (String.substring 7 (String.length t - 7) t))
  else None.

(** Modelled from the spec: unused-import heuristic: the bound name never
    reappears later in the text (step 2). *)
Definition unused_import : Detector :=
  {| category := "unused-import";
     rule := fun _ text n l =>
       match imported_name l with
       | Some name =>
           if existsb (Js.includes name) (drop n text) then None
           else Some (Info, "unused import: " +:+ name)
       | None => None
       end;
     suggestion := "remove unused imports" |}.

(** Modelled from the spec: the double quote that opens a literal
    string. *)
Definition quote : string := String (ascii_of_nat 34) EmptyString.

(** Modelled from the spec: hardcoded-secret heuristic: an assignment to a
    name of the deny-list followed by a literal string (step 2). *)
Definition hardcoded_secret : Detector :=
  {| category := "hardcoded-secret";
     rule := fun _ _ _ l =>
       let lowered := Js.toLowerCase l in
       if existsb (fun w => Js.includes (w +:+ " = " +:+ quote) lowered)
            ["password"; "secret"; "key"]
       then Some (Critical, "hardcoded secret")
       else None;
     suggestion := "use environment variables for secrets" |}.

(** Modelled from the spec: line-length violation over 120 characters
    (step 2). *)
Definition long_line : Detector :=
  {| category := "line-length";
     rule := fun _ _ _ l =>
       if 120 <? String.length l then Some (Info, "line too long") else None;
     suggestion := "wrap long lines" |}.

(** Modelled from the spec: missing-documentation heuristic: a definition
    whose preceding line is not a comment (step 2). *)
Definition missing_documentation : Detector :=
  {| category := "missing-documentation";
     rule := fun lang text n l =>
       let t := Js.trimStart l in
       if Js.starts_with "def " t || Js.starts_with "class " t
          || Js.starts_with "function " t
       then
         match n with
         | S (S k) =>
             if is_comment (comment_prefix lang) (default "" (text !! k))
             then None else Some (Warning, "missing documentation")
         | _ => Some (Warning, "missing documentation")
         end
       else None;
     suggestion := "document classes and functions" |}.

(** Modelled from the spec: one choice of the constants the spec leaves to
    the implementer (section 9). *)
Definition config : Config :=
  {| weight_critical := 20; weight_warning := 10; weight_info := 2;
     bonus_points := 5; density_num := 1; density_den := 5;
     Engine.language_of := language_of;
     Engine.comment_prefix := comment_prefix;
     Engine.decode := decode;
     detectors :=
       [unused_import; hardcoded_secret; long_line; missing_documentation] |}.

(** Modelled from the spec: another choice of the constants, with the same
    ordered weights and a documentation bonus above the critical weight
    (section 9 leaves the values to the implementer). *)
Definition generous_config : Config :=
  {| weight_critical := 20; weight_warning := 10; weight_info := 2;
     bonus_points := 30; density_num := 1; density_den := 5;
     Engine.language_of := language_of;
     Engine.comment_prefix := comment_prefix;
     Engine.decode := decode;
     detectors :=
       [unused_import; hardcoded_secret; long_line; missing_documentation] |}.

(** Modelled from the spec: binary content, the first bytes of an image
    (section 8: a directory ["proj"] holding one undecodable binary file
    and two valid text files). *)
Definition binary_blob : string :=
  String (ascii_of_nat 137) (String (ascii_of_nat 0) "PNG").

(** Modelled from the spec: the files of the directory, in discovery
    order. *)
Definition sample_files : list (string * string) :=
  [ ("proj/a.py", "import os" +:+ String LF "x = 1");
    ("proj/logo.png", binary_blob);
    ("proj/b.js", "// entry" +:+ String LF "function f() {}") ].

(** Modelled from the spec: the setup of the aggregator over that
    directory: its walker, a display cap of 20 and the rule of section
    4.2. *)
Definition setup : Project.Setup :=
  {| Project.walk := fun path =>
       if String.eqb path "proj" then Some sample_files else None;
     Project.issue_cap := 20;
     Project.rules :=
       [ (fun s => Project.stat_files s <? 10 * Project.stat_critical_files s,
          "more than 10% of the files have critical issues") ] |}.

End Reference.

(** ** Sample inputs *)

(** Modelled from the spec: the text of the scenario of section 8, two
    imports, an empty line and a password assignment. *)
Definition sample_source : string :=
  "import os" +:+ String Engine.LF
    ("import sys" +:+ String Engine.LF
       (String Engine.LF
          ("password = " +:+ Reference.quote +:+ "admin123"
             +:+ Reference.quote +:+ String Engine.LF EmptyString))).

(** Modelled from the spec: a function without documentation, and the
    same text with one more line, a comment that assigns a password. *)
Definition plain_function : string :=
  "def f():" +:+ String Engine.LF
    ("    return 1" +:+ String Engine.LF EmptyString).

Definition commented_secret : string :=
  plain_function
    +:+ "# password = " +:+ Reference.quote +:+ "x" +:+ Reference.quote
    +:+ String Engine.LF EmptyString.

(** A response with 25 issues, on lines 1 to 25 of one file. *)
Definition sample_response : Analyzer.response :=
  {| Analyzer.project := "proj";
     Analyzer.response_summary :=
       {| Analyzer.files_analyzed := 1; Analyzer.total_lines := 30;
          Analyzer.total_issues := 25;
          Analyzer.languages := [("python", 1)] |};
     Analyzer.issues :=
       Some ((fun n => {| Analyzer.file := Some "a.py";
                          Analyzer.line := Some n;
                          Analyzer.severity := "info";
                          Analyzer.message := "line too long" |})
               <$> seq 1 25);
     Analyzer.recommendations := None |}.

(** A browser whose markdown and markup conversions leave the text as it
    is. *)
Definition sample_browser : Dom.browser :=
  {| Dom.parseMarkdown := fun s => s;
     Dom.html_text := fun s => s;
     Dom.clock := fun i => "2024-01-01T00:00:0" +:+ pretty i +:+ "Z" |}.

(** A page with a transcript of three messages and a blank input: a TAB,
    spaces, a NO-BREAK SPACE and a line break. *)
Definition sample_page : Dom.page :=
  {| Dom.input_value :=
       String (ascii_of_nat 9) " "
         +:+ String (ascii_of_nat 194) (String (ascii_of_nat 160) " ")
         +:+ String (ascii_of_nat 13) (String (ascii_of_nat 10) " ");
     Dom.input_height := "40px";
     Dom.transcript :=
       [ Ui.message_element sample_browser "Welcome" "system";
         Ui.message_element sample_browser "hello" "user";
         Ui.message_element sample_browser "hi there" "assistant" ];
     Dom.spinner := Some "none";
     Dom.send_disabled := false;
     Dom.local_storage :=
       {| Dom.chatHistory := None; Dom.chatSettings := None |};
     Dom.requests := [] |}.

Definition sample_component : ChatComponentEnhanced.component :=
  {| ChatComponentEnhanced.isStreaming := false;
     ChatComponentEnhanced.currentMessageElement := None |}.

(** ** [ChatComponentEnhanced.streamText] *)

Module Streaming.
Import Dom.

(** What one pass of the loop of [streamText] puts into the current
    message for the text accumulated so far. *)
Definition frame (b : browser) (displayText : string) : content :=
  if Js.includes "```" displayText
  then InnerHTML (parseMarkdown b displayText)
  else if Js.includes "**" displayText || Js.includes "_" displayText
  then InnerHTML (parseMarkdown b displayText)
  else TextContent displayText.

(** The loop of [streamText] over the remaining words: the accumulated
    text at the end and the frames shown on the way. *)
Fixpoint stream_words (b : browser) (displayText : string)
    (words : list string) : string * list content :=
  match words with
  | [] => (displayText, [])
  | word :: rest =>
      let displayText := displayText +:+ (word +:+ " ") in
      let '(final, frames) := stream_words b displayText rest in
      (final, frame b displayText :: frames)
  end.

(** [streamText(text)]: the frames shown word by word, and the content the
    current message is left with (the 20 ms pauses and the scrolling are
    not observable here). *)
Definition streamText (b : browser) (text : string)
    : list content * content :=
  let '(final, frames) := stream_words b EmptyString (Js.split " " text) in
  (frames, InnerHTML (parseMarkdown b final)).

End Streaming.

(** ** Toasts and page switching ([utils/ui.js]) *)

Module Shell.

(** A toast appended to [#toast-container]. *)
Record toast : Type := {
  toast_text : string;
  toast_type : string;
  toast_duration : nat
}.

(** An element of the page layout that [switchPage] may look at: its id,
    whether it carries the class [page], and its [display] style. *)
Record section_el : Type := {
  el_id : string;
  is_page : bool;
  display : string
}.

(** A navigation entry: its [data-page] attribute and whether it carries
    the class [active]. *)
Record nav_item : Type := {
  data_page : string;
  active : bool
}.

(** The page around the chat: the chat itself, the toasts shown so far
    (oldest first; their removal after [duration] ms is a timer and not
    modelled), the layout sections, the navigation and the title. *)
Record state : Type := {
  chat : Dom.page;
  toasts : list toast;
  sections : list section_el;
  nav : list nav_item;
  title : string
}.

Definition set_chat (p : Dom.page) (st : state) : state :=
  {| chat := p; toasts := toasts st; sections := sections st;
     nav := nav st; title := title st |}.

(** [UIManager.showToast(message, type, duration)]. *)
Definition showToast (message type : string) (duration : nat) (st : state)
    : state :=
  {| chat := chat st;
     toasts := toasts st
               ++ [{| toast_text := message; toast_type := type;
                      toast_duration := duration |}];
     sections := sections st; nav := nav st; title := title st |}.

(** The [titles] object literal of [switchPage]. *)
Definition titles : gmap string Js.value :=
  Js.literal
    [ ("chat", "Chat with AI Agent"); ("analyze", "Code Analysis");
      ("screen", "Screen Capture"); ("files", "File Manager");
      ("settings", "Settings") ].

Definition hide (e : section_el) : section_el :=
  if is_page e
  then {| el_id := el_id e; is_page := true; display := "none" |}
  else e.

(** [page.style.display = 'block'] on the element [getElementById]
    returns, the first one with the id. *)
Fixpoint show_first (id : string) (l : list section_el) : list section_el :=
  match l with
  | [] => []
  | e :: rest =>
      if String.eqb (el_id e) id
      then {| el_id := el_id e; is_page := is_page e; display := "block" |}
             :: rest
      else e :: show_first id rest
  end.

(** [navItem.classList.add('active')] on the element [querySelector]
    returns, the first one with the attribute value. *)
Fixpoint activate_first (name : string) (l : list nav_item) : list nav_item :=
  match l with
  | [] => []
  | n :: rest =>
      if String.eqb (data_page n) name
      then {| data_page := data_page n; active := true |} :: rest
      else n :: activate_first name rest
  end.

Definition deactivate (n : nav_item) : nav_item :=
  {| data_page := data_page n; active := false |}.

(** Whether [pageName] can stand between the quotes of the attribute
    selector that [switchPage] builds from it: it holds no double quote,
    backslash or line break.  With any other name [querySelector] throws. *)
Definition selector_safe (pageName : string) : bool :=
  forallb
    (fun c =>
       let n := nat_of_ascii c in
       negb ((n =? 34) || (n =? 92) || (n =? 10) || (n =? 12) || (n =? 13)))
    (Js.chars pageName).

(** [UIManager.switchPage(pageName)], for a page name that is
    [selector_safe]; the entries of [nav] are the elements that carry a
    [data-page] attribute. *)
Definition switchPage (pageName : string) (st : state) : state :=
  let hidden := hide <$> sections st in
  let id := pageName +:+ "-page" in
  if existsb (fun e => String.eqb (el_id e) id) hidden
  then
    {| chat := chat st; toasts := toasts st;
       sections := show_first id hidden;
       nav := activate_first pageName (deactivate <$> nav st);
       title :=
         Js.to_string
           (Js.or_else (Js.get titles pageName) (Js.Str "AI Code Agent")) |}
  else
    {| chat := chat st; toasts := toasts st; sections := hidden;
       nav := nav st; title := title st |}.

End Shell.

(** ** More of [ChatComponent] *)

Module ChatActions.
Import Dom.

Definition LF : string := String (ascii_of_nat 10) EmptyString.

(** The text [handleFileSelect] puts into the input field: a fenced code
    block tagged with the language. *)
Definition fenced (lang : Js.value) (content : string) : string :=
  "```" +:+ Js.to_string lang +:+ LF +:+ content +:+ LF +:+ "```".

(** [handleFileSelect(e)].  [file] is [e.target.files[0]], if any, with its
    name and what [file.text()] settles to: the content, or the message of
    the error it rejects with. *)
Definition handleFileSelect (file : option (string * (string + string)))
    (st : Shell.state) : Shell.state :=
  match file with
  | None => st
  | Some (name, read) =>
      let st := Shell.set_chat (Ui.showLoading (Shell.chat st)) st in
      let st :=
        match read with
        | inr content =>
            match ChatComponent.getLanguageFromFile name with
            | Js.Normal lang =>
                let p := Shell.chat st in
                let st :=
                  Shell.set_chat
                    (set_input (fenced lang content) (input_height p) p) st in
                Shell.showToast ("Loaded: " +:+ name) "success" 3000 st
            | Js.Throw error =>
                Shell.showToast ("Error loading file: " +:+ error) "error"
                  3000 st
            end
        | inl error =>
            Shell.showToast ("Error loading file: " +:+ error) "error" 3000 st
        end in
      Shell.set_chat (Ui.hideLoading (Shell.chat st)) st
  end.

(** What [api.captureScreen] comes back with. *)
Inductive capture_outcome : Type :=
| Captured
| NotCaptured
| CaptureRejected (message : string).

(** [captureScreen()] of [ChatComponent] (focus is not observable
    here). *)
Definition captureScreen (outcome : capture_outcome) (st : Shell.state)
    : Shell.state :=
  let st := Shell.set_chat (Ui.showLoading (Shell.chat st)) st in
  let st :=
    match outcome with
    | Captured =>
        let st :=
          Shell.showToast "Screen captured! Adding to message..." "success"
            3000 st in
        let p := Shell.chat st in
        Shell.set_chat
          (set_input (value p +:+ LF +:+ "[Screen captured and analyzed]")
             (input_height p) p) st
    | NotCaptured => Shell.showToast "Failed to capture screen" "error" 3000 st
    | CaptureRejected msg =>
        Shell.showToast ("Screen capture error: " +:+ msg) "error" 3000 st
    end in
  Shell.set_chat (Ui.hideLoading (Shell.chat st)) st.

(** [clearHistory()].  [welcome] is the markup the template puts inside
    the [.message-content] of its single system message; the two chat
    components differ in it only. *)
Definition clearHistory (welcome : string) (st : Shell.state) : Shell.state :=
  let p := Shell.chat st in
  let p :=
    set_transcript
      [{| className := "message system"; body := InnerHTML welcome;
          followups := [] |}] p in
  let p :=
    set_storage
      {| chatHistory := None;
         chatSettings := chatSettings (local_storage p) |} p in
  Shell.showToast "Chat history cleared" "info" 3000 (Shell.set_chat p st).

End ChatActions.

(** ** More of [AnalyzerComponent] *)

Module AnalyzerActions.

(** The part of the page the analyzer works on: the value read from the
    project path field ([this.projectPath.value]), whether
    [#analysis-results] exists and what was last rendered into it, the
    spinner, the toasts shown and the paths POSTed to
    [/analyze-project]. *)
Record state : Type := {
  project_path : string;
  container : bool;
  results : option Analyzer.view;
  spinner : option string;
  toasts : list Shell.toast;
  requests : list string
}.

(** What [api.analyzeProject] comes back with. *)
Inductive outcome : Type :=
| Analyzed (r : Analyzer.response)
| Failed (message : string)
| Rejected (message : string).

Definition showToast (message type : string) (st : state) : state :=
  {| project_path := project_path st; container := container st;
     results := results st; spinner := spinner st;
     toasts := toasts st
               ++ [{| Shell.toast_text := message; Shell.toast_type := type;
                      Shell.toast_duration := 3000 |}];
     requests := requests st |}.

Definition set_spinner (display : string) (st : state) : state :=
  {| project_path := project_path st; container := container st;
     results := results st;
     spinner := match spinner st with
                | Some _ => Some display
                | None => None
                end;
     toasts := toasts st; requests := requests st |}.

(** [this.displayProjectAnalysis(response)] on this state. *)
Definition render (r : Analyzer.response) (st : state) : state :=
  match Analyzer.displayProjectAnalysis (container st) r with
  | Some v =>
      {| project_path := project_path st; container := container st;
         results := Some v; spinner := spinner st;
         toasts := toasts st; requests := requests st |}
  | None => st
  end.

(** [analyzeProject()], with the outcome of the API call it awaits. *)
Definition analyzeProject (o : outcome) (st : state) : state :=
  let path := Js.trim (project_path st) in
  if negb (Js.truthy (Js.Str path))
  then showToast "Please enter a project path" "warning" st
  else
    let st := set_spinner "flex" st in
    let st :=
      {| project_path := project_path st; container := container st;
         results := results st; spinner := spinner st;
         toasts := toasts st; requests := requests st ++ [path] |} in
    let st :=
      match o with
      | Analyzed r =>
          showToast "Project analysis complete!" "success" (render r st)
      | Failed msg => showToast ("Analysis failed: " +:+ msg) "error" st
      | Rejected msg => showToast ("Error: " +:+ msg) "error" st
      end in
    set_spinner "none" st.

End AnalyzerActions.

(** ** [window.chatComponent] *)

Module Window.

(** The chat component the page installed: a [ChatComponent], or a
    [ChatComponentEnhanced] with its fields and the follow-up suggestions
    its next answer picks. *)
Inductive chatComponent : Type :=
| Plain
| Enhanced (c : ChatComponentEnhanced.component) (picked : list string).

Definition streaming (w : chatComponent) : bool :=
  match w with
  | Plain => false
  | Enhanced c _ => ChatComponentEnhanced.isStreaming c
  end.

(** [window.chatComponent.sendMessage()], with the outcome of the API call
    it awaits, as it changes the page. *)
Definition sendMessage (b : Dom.browser) (outcome : Dom.api_outcome)
    (w : chatComponent) (p : Dom.page) : Dom.page :=
  match w with
  | Plain => ChatComponent.sendMessage b outcome p
  | Enhanced c picked =>
      (ChatComponentEnhanced.sendMessage b outcome picked (c, p)).2
  end.

End Window.

(** ** [MonitorComponent] *)

Module Monitor.

(** An issue of a monitored file as parsed from the JSON response. *)
Record issue : Type := {
  line : Js.json;
  message : Js.json;
  severity : Js.json
}.

(** [this.analysisResults], in [Object.entries] order: file path and the
    [issues] list of its analysis, if it has one. *)
Definition results : Type := list (string * option (list issue)).

(** [${issue.line}]. *)
Definition line_text (i : issue) : string := Js.template_text (line i).

Definition LF : string := String (ascii_of_nat 10) EmptyString.

Definition issue_line (i : issue) : string :=
  "- Line " +:+ line_text i +:+ ": " +:+ Js.template_text (message i)
    +:+ " (" +:+ Js.template_text (severity i) +:+ ")" +:+ LF.

(** What [getIssuesString] appends for one file. *)
Definition file_block (entry : string * option (list issue)) : string :=
  match entry.2 with
  | Some (i :: l) =>
      LF +:+ "**" +:+ entry.1 +:+ ":**" +:+ LF
         +:+ Js.concat (issue_line <$> (i :: l))
  | _ => EmptyString
  end.

(** [getIssuesString()]. *)
Definition getIssuesString (r : results) : string :=
  fold_left (fun issuesStr entry => issuesStr +:+ file_block entry) r
    EmptyString.

(** The counter [displayAnalysis] accumulates; the list of issues and the
    button that calls [askAgentToFix] are rendered when it is positive. *)
Definition totalIssues (r : results) : nat :=
  fold_left (fun total a => total + length (default [] a.2)) r 0.

(** The message [askAgentToFix] sends to the chat. *)
Definition fix_request (issues : string) : string :=
  "I have some code issues detected by the monitor:" +:+ LF +:+ LF
    +:+ issues +:+ LF +:+ LF +:+ "Can you help me fix these?".

(** [askAgentToFix()]; [send] is [window.chatComponent.sendMessage] with
    the outcome of the call it awaits. *)
Definition askAgentToFix (send : Dom.page -> Dom.page) (r : results)
    (st : Shell.state) : Shell.state :=
  let issues := getIssuesString r in
  if negb (Js.truthy (Js.Str issues))
  then Shell.showToast "No issues to fix" "info" 3000 st
  else
    let st := Shell.switchPage "chat" st in
    let p := Shell.chat st in
    let p := Dom.set_input (fix_request issues) (Dom.input_height p) p in
    Shell.set_chat (send p) st.

End Monitor.

(** ** [app.js] *)

Module App.

(** The [beforeunload] handler; [present] tells whether
    [window.chatComponent] exists. *)
Definition beforeunload (b : Dom.browser) (present : bool) (p : Dom.page)
    : Dom.page :=
  match Dom.chatSettings (Dom.local_storage p) with
  | Some settings =>
      if Dom.autoSave settings && present
      then ChatComponent.saveChatHistory b p
      else p
  | None => p
  end.

(** [App.sendMessage(message)]; [send] is
    [window.chatComponent.sendMessage], if the component exists. *)
Definition sendMessage (send : option (Dom.page -> Dom.page))
    (message : string) (p : Dom.page) : Dom.page :=
  match send with
  | Some sendMessage =>
      sendMessage (Dom.set_input message (Dom.input_height p) p)
  | None => p
  end.

End App.

(** A page with the chat and analyze sections, a footer that is not a page,
    and their navigation entries. *)
Definition sample_shell : Shell.state :=
  {| Shell.chat := sample_page;
     Shell.toasts := [];
     Shell.sections :=
       [ {| Shell.el_id := "chat-page"; Shell.is_page := true;
            Shell.display := "none" |};
         {| Shell.el_id := "analyze-page"; Shell.is_page := true;
            Shell.display := "block" |};
         {| Shell.el_id := "footer"; Shell.is_page := false;
            Shell.display := "flex" |} ];
     Shell.nav :=
       [ {| Shell.data_page := "chat"; Shell.active := false |};
         {| Shell.data_page := "analyze"; Shell.active := true |} ];
     Shell.title := "Code Analysis" |}.

(** Monitor results: one file with two issues, one file without. *)
Definition sample_results : Monitor.results :=
  [ ("src/app.py",
     Some [ {| Monitor.line := Js.Num 4;
               Monitor.message := Js.Text "hardcoded secret";
               Monitor.severity := Js.Text "critical" |};
            {| Monitor.line := Js.Null;
               Monitor.message := Js.Text "unused import";
               Monitor.severity := Js.Text "info" |} ]);
    ("src/util.py", Some []) ].

(* ===================================================================== *)
(** * Part II: properties *)
(* ===================================================================== *)

(** ** Strings *)

Lemma chars_append (s t : string) :
  Js.chars (s +:+ t) = Js.chars s ++ Js.chars t.
Proof.
  induction s as [|c s IH]; simpl; [reflexivity|].
  by rewrite IH.
Qed.

Lemma split_not_empty (sep : ascii) (s : string) : Js.split sep s <> [].
Proof.
  induction s as [|c s IH]; simpl; [discriminate|].
  destruct (Ascii.eqb c sep); [discriminate|].
  destruct (Js.split sep s); discriminate.
Qed.

Lemma pop_split (sep : ascii) (s : string) :
  exists piece, Js.pop (Js.split sep s) = Some piece.
Proof.
  unfold Js.pop.
  destruct (last (Js.split sep s)) as [piece|] eqn:E; [by exists piece|].
  apply last_None in E. by apply split_not_empty in E.
Qed.

(** *** White space *)

Lemma solid_ascii (c : ascii) :
  Js.solid c = true -> nat_of_ascii c < 128 /\ Js.is_space c = false.
Proof.
  unfold Js.solid. rewrite andb_true_iff, negb_true_iff, Nat.ltb_lt. done.
Qed.

Lemma space_lead_high (c : ascii) :
  Js.space_lead c = true -> 128 <= nat_of_ascii c.
Proof.
  unfold Js.space_lead. rewrite !orb_true_iff, !Nat.eqb_eq. lia.
Qed.

Lemma two_byte_space_high (c1 c2 : ascii) :
  Js.two_byte_space c1 c2 = true -> 128 <= nat_of_ascii c2.
Proof.
  unfold Js.two_byte_space. rewrite andb_true_iff, !Nat.eqb_eq. lia.
Qed.

Lemma three_byte_space_high (c1 c2 c3 : ascii) :
  Js.three_byte_space c1 c2 c3 = true ->
  128 <= nat_of_ascii c2 /\ 128 <= nat_of_ascii c3.
Proof.
  unfold Js.three_byte_space.
  rewrite !orb_true_iff, !andb_true_iff, !orb_true_iff, !andb_true_iff,
    !Nat.eqb_eq, !Nat.leb_le.
  lia.
Qed.

(** A solid byte is not the first byte of white space. *)
Lemma solid_head (c : ascii) :
  Js.solid c = true -> Js.is_space c = false /\ Js.space_lead c = false.
Proof.
  intros Hc. apply solid_ascii in Hc as [Hlow Hspace].
  split; [exact Hspace|].
  destruct (Js.space_lead c) eqn:E; [|reflexivity].
  apply space_lead_high in E. lia.
Qed.

(** [trimStart] drops white space only: a solid byte stays. *)
Lemma trimStart_keeps_solid (n : nat) (s : string) (c : ascii) :
  String.length s <= n -> Js.solid c = true ->
  c ∈ Js.chars s -> c ∈ Js.chars (Js.trimStart s).
Proof.
  revert s. induction n as [|n IH]; intros s Hlen Hc Hin.
  { destruct s; [inversion Hin|simpl in Hlen; lia]. }
  destruct s as [|c1 r1]; [inversion Hin|].
  pose proof (solid_ascii c Hc) as [Hlow Hspace].
  simpl in Hlen. cbn [Js.trimStart].
  destruct (Js.is_space c1) eqn:E1.
  { apply IH; [lia|done|]. cbn [Js.chars] in Hin.
    apply elem_of_cons in Hin as [->|Hin]; [congruence|done]. }
  destruct (Js.space_lead c1) eqn:E2; cbn [negb]; [|exact Hin].
  apply space_lead_high in E2.
  destruct r1 as [|c2 r2]; [exact Hin|]. simpl in Hlen.
  destruct (Js.two_byte_space c1 c2) eqn:E3.
  { apply two_byte_space_high in E3.
    apply IH; [lia|done|]. cbn [Js.chars] in Hin.
    apply elem_of_cons in Hin as [->|Hin]; [lia|].
    apply elem_of_cons in Hin as [->|Hin]; [lia|done]. }
  destruct r2 as [|c3 r3]; [exact Hin|]. simpl in Hlen.
  destruct (Js.three_byte_space c1 c2 c3) eqn:E4; [|exact Hin].
  apply three_byte_space_high in E4 as [H2 H3].
  apply IH; [lia|done|]. cbn [Js.chars] in Hin.
  apply elem_of_cons in Hin as [->|Hin]; [lia|].
  apply elem_of_cons in Hin as [->|Hin]; [lia|].
  apply elem_of_cons in Hin as [->|Hin]; [lia|done].
Qed.

(** A string with a solid byte is not blank. *)
Lemma blank_solid (s : string) (c : ascii) :
  Js.solid c = true -> c ∈ Js.chars s -> Js.blank s = false.
Proof.
  intros Hc Hin. unfold Js.blank.
  pose proof (trimStart_keeps_solid (String.length s) s c (le_n _) Hc Hin)
    as Hkept.
  destruct (Js.trimStart s); [inversion Hkept|reflexivity].
Qed.

Lemma trimStart_solid_head (c : ascii) (r : string) :
  Js.solid c = true -> Js.trimStart (String c r) = String c r.
Proof.
  intros Hc. apply solid_head in Hc as [Hspace Hlead].
  cbn [Js.trimStart]. by rewrite Hspace, Hlead.
Qed.

Lemma trimEnd_solid_tail (s : string) (d : ascii) :
  Js.solid d = true ->
  Js.trimEnd (s +:+ String d EmptyString) = s +:+ String d EmptyString.
Proof.
  intros Hd. induction s as [|c s IH].
  - change (EmptyString +:+ String d EmptyString) with (String d EmptyString).
    cbn [Js.trimEnd].
    rewrite (blank_solid _ d Hd); [reflexivity|]. cbn. left.
  - change (String c s +:+ String d EmptyString)
      with (String c (s +:+ String d EmptyString)).
    cbn [Js.trimEnd]. rewrite IH.
    rewrite (blank_solid _ d Hd); [reflexivity|].
    cbn [Js.chars]. right. rewrite chars_append.
    apply elem_of_app. right. cbn. left.
Qed.

(** A text that starts and ends with a solid byte trims to itself. *)
Lemma trim_kept (c d : ascii) (r : string) :
  Js.solid c = true -> Js.solid d = true ->
  Js.trim (String c (r +:+ String d EmptyString))
  = String c (r +:+ String d EmptyString).
Proof.
  intros Hc Hd. unfold Js.trim. rewrite (trimStart_solid_head c _ Hc).
  exact (trimEnd_solid_tail (String c r) d Hd).
Qed.

(** A text with a solid byte does not trim to nothing. *)
Lemma trim_solid (s : string) (c : ascii) :
  Js.solid c = true -> c ∈ Js.chars s -> Js.trim s <> EmptyString.
Proof.
  intros Hc Hin. unfold Js.trim.
  pose proof (trimStart_keeps_solid (String.length s) s c (le_n _) Hc Hin)
    as Hkept.
  destruct (Js.trimStart s) as [|c' r'] eqn:E; [inversion Hkept|].
  cbn [Js.trimEnd]. by rewrite (blank_solid _ c Hc Hkept).
Qed.

Lemma trimStart_idempotent (n : nat) (s : string) :
  String.length s <= n -> Js.trimStart (Js.trimStart s) = Js.trimStart s.
Proof.
  revert s. induction n as [|n IH]; intros s Hlen.
  { destruct s; [reflexivity|simpl in Hlen; lia]. }
  destruct s as [|c1 r1]; [reflexivity|].
  simpl in Hlen. cbn [Js.trimStart].
  destruct (Js.is_space c1) eqn:E1; [apply IH; lia|].
  destruct (Js.space_lead c1) eqn:E2; cbn [negb].
  2: { cbn [Js.trimStart]. by rewrite E1, E2. }
  destruct r1 as [|c2 r2].
  { cbn [Js.trimStart]. by rewrite E1, E2. }
  simpl in Hlen.
  destruct (Js.two_byte_space c1 c2) eqn:E3; [apply IH; lia|].
  destruct r2 as [|c3 r3].
  { cbn [Js.trimStart]. by rewrite E1, E2, E3. }
  simpl in Hlen.
  destruct (Js.three_byte_space c1 c2 c3) eqn:E4; [apply IH; lia|].
  cbn [Js.trimStart]. by rewrite E1, E2, E3, E4.
Qed.

(** A string trims to the empty string exactly when it consists of white
    space and line terminators only. *)
Lemma trim_empty (s : string) :
  Js.trim s = EmptyString <-> Js.blank s = true.
Proof.
  unfold Js.trim, Js.blank.
  pose proof (trimStart_idempotent (String.length s) s (le_n _)) as Hidem.
  destruct (Js.trimStart s) as [|c r] eqn:E; [done|].
  cbn [Js.trimEnd]. unfold Js.blank. rewrite Hidem.
  split; discriminate.
Qed.

(** NO-BREAK SPACE, IDEOGRAPHIC SPACE and the byte order mark, in UTF-8. *)
Example trim_unicode_space :
  let nbsp :=
    String (ascii_of_nat 194) (String (ascii_of_nat 160) EmptyString) in
  let wide :=
    String (ascii_of_nat 227)
      (String (ascii_of_nat 128) (String (ascii_of_nat 128) EmptyString)) in
  let bom :=
    String (ascii_of_nat 239)
      (String (ascii_of_nat 187) (String (ascii_of_nat 191) EmptyString)) in
  Js.trim (nbsp +:+ " fix  this" +:+ wide +:+ bom) = "fix  this" /\
  Js.trim (nbsp +:+ wide +:+ " " +:+ bom) = EmptyString.
Proof. vm_compute. done. Qed.

Example trim_keeps_inner_space :
  Js.trim ("  fix  this " +:+ String (ascii_of_nat 10) EmptyString)
  = "fix  this".
Proof. reflexivity. Qed.

(** *** Line breaks of a textarea *)

Lemma normalize_other (c : ascii) (r : string) :
  (nat_of_ascii c =? 13) = false ->
  Js.normalize_newlines (String c r) = String c (Js.normalize_newlines r).
Proof. intros E. cbn [Js.normalize_newlines]. by rewrite E. Qed.

Lemma normalize_cr_end (c : ascii) :
  (nat_of_ascii c =? 13) = true ->
  Js.normalize_newlines (String c EmptyString)
  = String (ascii_of_nat 10) EmptyString.
Proof. intros E. cbn [Js.normalize_newlines]. by rewrite E. Qed.

Lemma normalize_cr_lf (c d : ascii) (r : string) :
  (nat_of_ascii c =? 13) = true -> (nat_of_ascii d =? 10) = true ->
  Js.normalize_newlines (String c (String d r))
  = String (ascii_of_nat 10) (Js.normalize_newlines r).
Proof. intros E Ed. cbn [Js.normalize_newlines]. by rewrite E, Ed. Qed.

Lemma normalize_cr_other (c d : ascii) (r : string) :
  (nat_of_ascii c =? 13) = true -> (nat_of_ascii d =? 10) = false ->
  Js.normalize_newlines (String c (String d r))
  = String (ascii_of_nat 10) (Js.normalize_newlines (String d r)).
Proof. intros E Ed. cbn [Js.normalize_newlines]. by rewrite E, Ed. Qed.

(** Normalising distributes over a concatenation whose second part does
    not start with a line feed. *)
Lemma normalize_app (n : nat) (s t : string) :
  String.length s <= n ->
  (forall d t', t = String d t' -> nat_of_ascii d <> 10) ->
  Js.normalize_newlines (s +:+ t)
  = Js.normalize_newlines s +:+ Js.normalize_newlines t.
Proof.
  intros Hlen Ht. revert s Hlen.
  induction n as [|n IH]; intros s Hlen.
  { destruct s; [reflexivity|simpl in Hlen; lia]. }
  destruct s as [|c r]; [reflexivity|].
  simpl in Hlen.
  destruct (nat_of_ascii c =? 13) eqn:E.
  2: { change (String c r +:+ t) with (String c (r +:+ t)).
       rewrite !(normalize_other c) by done. rewrite IH by lia.
       reflexivity. }
  destruct r as [|d r'].
  - change (String c EmptyString +:+ t) with (String c t).
    rewrite (normalize_cr_end c E).
    destruct t as [|d t'] eqn:Et.
    + by rewrite (normalize_cr_end c E).
    + assert ((nat_of_ascii d =? 10) = false) as Ed.
      { apply Nat.eqb_neq. by apply (Ht d t'). }
      by rewrite (normalize_cr_other c d t' E Ed).
  - change (String c (String d r') +:+ t)
      with (String c (String d (r' +:+ t))).
    simpl in Hlen.
    destruct (nat_of_ascii d =? 10) eqn:Ed.
    + rewrite !(normalize_cr_lf c d) by done. rewrite IH by lia.
      reflexivity.
    + rewrite !(normalize_cr_other c d) by done.
      change (String d (r' +:+ t)) with (String d r' +:+ t).
      rewrite (IH (String d r')) by (simpl; lia). reflexivity.
Qed.

(** A text between two solid bytes keeps them when normalised, and then
    trims to itself. *)
Lemma normalize_kept (c d : ascii) (r : string) :
  Js.solid c = true -> Js.solid d = true ->
  Js.normalize_newlines (String c (r +:+ String d EmptyString))
  = String c (Js.normalize_newlines r +:+ String d EmptyString).
Proof.
  intros Hc Hd.
  assert (forall e, Js.solid e = true ->
                    (nat_of_ascii e =? 13) = false
                    /\ (nat_of_ascii e =? 10) = false) as Hsolid.
  { intros e He. apply solid_ascii in He as [_ He].
    unfold Js.is_space in He.
    apply orb_false_iff in He as [He _].
    apply andb_false_iff in He.
    rewrite !Nat.leb_gt in He. rewrite !Nat.eqb_neq. lia. }
  destruct (Hsolid c Hc) as [Hc13 _]. destruct (Hsolid d Hd) as [Hd13 Hd10].
  rewrite (normalize_other c _ Hc13). f_equal.
  rewrite (normalize_app (String.length r)); [|lia|].
  - by rewrite (normalize_other d _ Hd13).
  - intros e t' [= <- <-]. by apply Nat.eqb_neq.
Qed.

Lemma trim_normalize_kept (c d : ascii) (r : string) :
  Js.solid c = true -> Js.solid d = true ->
  Js.trim (Js.normalize_newlines (String c (r +:+ String d EmptyString)))
  = Js.normalize_newlines (String c (r +:+ String d EmptyString)).
Proof.
  intros Hc Hd. rewrite (normalize_kept c d r Hc Hd).
  by apply trim_kept.
Qed.

(** Without a carriage return nothing is normalised. *)
Lemma normalize_no_cr (s : string) :
  forallb (fun c => negb (nat_of_ascii c =? 13)) (Js.chars s) = true ->
  Js.normalize_newlines s = s.
Proof.
  induction s as [|c s IH]; [reflexivity|].
  cbn [Js.chars forallb].
  rewrite andb_true_iff, negb_true_iff. intros [Hc Hs].
  rewrite (normalize_other c s Hc). by rewrite IH.
Qed.

Example split_keeps_empty_pieces :
  Js.split "." "archive.tar.gz" = ["archive"; "tar"; "gz"] /\
  Js.split "." "README" = ["README"] /\
  Js.split "." "notes." = ["notes"; ""].
Proof. repeat split; reflexivity. Qed.

(** Case analysis on the 256 characters. *)
Ltac each_char c :=
  destruct c as [[] [] [] [] [] [] [] []].

(** ** [escapeHtml] *)

(** On one character, the callback of [escapeHtml] and the entity table
    agree. *)
Lemma escape_one (c : ascii) :
  (if Ui.escape_class c
   then Js.to_string (Js.get Ui.escape_map (String c EmptyString))
   else String c EmptyString) = Ui.entity c.
Proof. each_char c; vm_compute; reflexivity. Qed.

Lemma entity_clean (c : ascii) :
  forallb (fun d => negb (Ui.markup_char d)) (Js.chars (Ui.entity c)) = true.
Proof. each_char c; vm_compute; reflexivity. Qed.

Lemma escapeHtml_cons (c : ascii) (s : string) :
  Ui.escapeHtml (String c s) = Ui.entity c +:+ Ui.escapeHtml s.
Proof.
  unfold Ui.escapeHtml. simpl. by rewrite escape_one.
Qed.

Example escapeHtml_sample :
  Ui.escapeHtml "if (a < b && c > d) { s = 'x'; }"
  = "if (a &lt; b &amp;&amp; c &gt; d) { s = &#039;x&#039;; }".
Proof. vm_compute. reflexivity. Qed.

(** C8: [escapeHtml] replaces every occurrence of [&], [<], [>], the double
    quote and the apostrophe by its entity and keeps every other character,
    so that none of [<], [>], double quote or apostrophe occurs in the
    result. *)
Theorem escapeHtml_replaces_specials (text : string) :
  Ui.escapeHtml text = Js.concat (Ui.entity <$> Js.chars text) /\
  (forall c, c ∈ Js.chars (Ui.escapeHtml text) ->
     c <> "<"%char /\ c <> ">"%char /\ c <> Ui.quot /\ c <> Ui.apos).
Proof.
  split.
  - induction text as [|c s IH]; [reflexivity|].
    rewrite escapeHtml_cons, IH. reflexivity.
  - induction text as [|c s IH]; intros d Hd.
    + inversion Hd.
    + rewrite escapeHtml_cons, chars_append in Hd.
      apply elem_of_app in Hd as [Hd|Hd]; [|by apply IH].
      pose proof (entity_clean c) as Hclean.
      rewrite forallb_forall in Hclean.
      apply list_elem_of_In, Hclean in Hd.
      unfold Ui.markup_char in Hd.
      repeat split; intros ->; vm_compute in Hd; discriminate.
Qed.

(** ** [getLanguageFromFile] *)

Lemma enhanced_getLanguageFromFile (filename : string) :
  ChatComponentEnhanced.getLanguageFromFile filename
  = ChatComponent.getLanguageFromFile filename.
Proof. reflexivity. Qed.

Lemma getLanguageFromFile_unfold (filename : string) :
  ChatComponent.getLanguageFromFile filename
  = Js.Normal (Js.or_else (Js.get ChatComponent.languages
                             (ChatComponent.extension_of filename)) (Js.Str "text")).
Proof.
  unfold ChatComponent.getLanguageFromFile, ChatComponent.extension_of.
  destruct (pop_split "." filename) as [piece ->]. reflexivity.
Qed.

Example getLanguageFromFile_samples :
  ChatComponent.getLanguageFromFile "main.PY" = Js.Normal (Js.Str "python") /\
  ChatComponent.getLanguageFromFile "lib/util.test.tsx"
    = Js.Normal (Js.Str "typescript") /\
  ChatComponent.getLanguageFromFile "archive.tar.gz"
    = Js.Normal (Js.Str "text") /\
  ChatComponent.getLanguageFromFile "README" = Js.Normal (Js.Str "text") /\
  ChatComponent.getLanguageFromFile "" = Js.Normal (Js.Str "text").
Proof. vm_compute. done. Qed.

(** The lookup never throws. *)
Lemma getLanguageFromFile_returns (filename : string) :
  exists v, ChatComponent.getLanguageFromFile filename = Js.Normal v.
Proof. rewrite getLanguageFromFile_unfold. eauto. Qed.

(** An extension of the table yields its language tag. *)
Lemma getLanguageFromFile_known (filename tag : string) :
  ChatComponent.languages !! ChatComponent.extension_of filename = Some (Js.Str tag) ->
  tag <> EmptyString ->
  ChatComponent.getLanguageFromFile filename = Js.Normal (Js.Str tag).
Proof.
  intros Hin Htag. rewrite getLanguageFromFile_unfold.
  unfold Js.get. rewrite Hin. unfold Js.or_else.
  destruct tag; [done|reflexivity].
Qed.

(** An extension that is neither in the table nor the name of a property
    inherited from [Object.prototype] yields ["text"]. *)
Lemma getLanguageFromFile_fallback (filename : string) :
  ChatComponent.languages !! ChatComponent.extension_of filename = None ->
  Js.object_prototype !! ChatComponent.extension_of filename = None ->
  ChatComponent.getLanguageFromFile filename = Js.Normal (Js.Str "text").
Proof.
  intros Hown Hproto. rewrite getLanguageFromFile_unfold.
  unfold Js.get. by rewrite Hown, Hproto.
Qed.

(** C6: on the file name [notes.constructor], whose extension is not in the
    table, both chat components return the inherited [Object] constructor
    instead of falling back to ["text"]. *)
Theorem getLanguageFromFile_inherited_property :
  ChatComponent.languages !! ChatComponent.extension_of "notes.constructor" = None /\
  ChatComponent.getLanguageFromFile "notes.constructor"
    = Js.Normal (Js.Function "Object") /\
  ChatComponentEnhanced.getLanguageFromFile "notes.constructor"
    = Js.Normal (Js.Function "Object") /\
  ChatComponent.getLanguageFromFile "notes.constructor"
    <> Js.Normal (Js.Str "text").
Proof. vm_compute. repeat split; discriminate. Qed.

(** ** [displayProjectAnalysis] *)

Lemma issue_rows_lookup (l : list Analyzer.issue) (k : nat) :
  Analyzer.issue_rows l !! k
  = if decide (k < 20) then Analyzer.render_row <$> l !! k else None.
Proof.
  unfold Analyzer.issue_rows, Analyzer.slice_from_start.
  rewrite list_lookup_fmap.
  destruct (decide (k < 20)) as [Hk|Hk].
  - by rewrite lookup_take_lt.
  - rewrite lookup_take_ge by lia. reflexivity.
Qed.

(** C7: the issue table of a project analysis shows the first 20 issues of
    the response, in the order of the response, one row per issue; no issue
    past the first 20 is rendered. *)
Theorem project_issue_table_first_20 (container : bool)
    (r : Analyzer.response) (v : Analyzer.view)
    (count : nat) (rows : list Analyzer.row) :
  Analyzer.displayProjectAnalysis container r = Some v ->
  Analyzer.issues_section v = Some (count, rows) ->
  let l := default [] (Analyzer.issues r) in
  rows = Analyzer.render_row <$> take 20 l /\
  length rows = Nat.min 20 (length l) /\
  (forall k i, k < 20 -> l !! k = Some i ->
     rows !! k = Some (Analyzer.render_row i)) /\
  (forall k, 20 <= k -> rows !! k = None).
Proof.
  unfold Analyzer.displayProjectAnalysis.
  destruct container; simpl; [|discriminate].
  intros [= <-]. simpl.
  destruct (0 <? length (default [] (Analyzer.issues r))); [|discriminate].
  intros [= <- <-].
  repeat split.
  - unfold Analyzer.issue_rows, Analyzer.slice_from_start.
    rewrite length_fmap, length_take. reflexivity.
  - intros k i Hk Hi. rewrite issue_rows_lookup.
    destruct (decide (k < 20)); [by rewrite Hi|lia].
  - intros k Hk. rewrite issue_rows_lookup.
    destruct (decide (k < 20)); [lia|reflexivity].
Qed.

Lemma project_issue_table_first_20_witness :
  exists v rows,
    Analyzer.displayProjectAnalysis true sample_response = Some v /\
    Analyzer.issues_section v = Some (25, rows) /\
    length rows = 20 /\
    rows !! 20 = None.
Proof.
  eexists _, _.
  split; [reflexivity|]. split; [reflexivity|].
  pose proof (project_issue_table_first_20 true sample_response _ _ _
                eq_refl eq_refl) as (_ & Hlen & _ & Hpast).
  split; [exact Hlen|].
  apply Hpast. lia.
Defined.

(** ** [sendMessage] *)

(** C9: when the chat input, as read from the textarea, trims to the empty
    string (it holds nothing but white space and line terminators, of one
    byte or more), [sendMessage] of either chat component leaves the page
    as it is: no request is issued, no message is appended, the input
    field and the stored history are untouched. *)
Theorem sendMessage_blank_input_noop (b : Dom.browser)
    (outcome : Dom.api_outcome) (picked : list string)
    (c : ChatComponentEnhanced.component) (p : Dom.page) :
  Js.trim (Dom.value p) = EmptyString ->
  let p1 := ChatComponent.sendMessage b outcome p in
  let s2 := ChatComponentEnhanced.sendMessage b outcome picked (c, p) in
  (p1 = p /\
   Dom.requests p1 = Dom.requests p /\
   Dom.transcript p1 = Dom.transcript p /\
   Dom.input_value p1 = Dom.input_value p /\
   Dom.local_storage p1 = Dom.local_storage p) /\
  (s2 = (c, p) /\
   Dom.requests (snd s2) = Dom.requests p /\
   Dom.transcript (snd s2) = Dom.transcript p /\
   Dom.input_value (snd s2) = Dom.input_value p /\
   Dom.local_storage (snd s2) = Dom.local_storage p).
Proof.
  intros Hblank.
  assert (ChatComponent.sendMessage b outcome p = p) as ->.
  { unfold ChatComponent.sendMessage. by rewrite Hblank. }
  assert (ChatComponentEnhanced.sendMessage b outcome picked (c, p) = (c, p))
    as ->.
  { unfold ChatComponentEnhanced.sendMessage. by rewrite Hblank. }
  simpl. done.
Qed.

Lemma sendMessage_blank_input_noop_witness :
  ChatComponent.sendMessage sample_browser (Dom.Success "ok") sample_page
    = sample_page /\
  ChatComponentEnhanced.sendMessage sample_browser (Dom.Success "ok")
      ["Show me an example"; "What are the alternatives?"]
      (sample_component, sample_page)
    = (sample_component, sample_page).
Proof.
  pose proof (sendMessage_blank_input_noop sample_browser (Dom.Success "ok")
                ["Show me an example"; "What are the alternatives?"]
                sample_component sample_page eq_refl) as [[H1 _] [H2 _]].
  split; [exact H1|exact H2].
Defined.

(** With a non-blank input a request is issued and the transcript grows:
    the guard of [sendMessage] is what makes the blank case a no-op. *)
Lemma sendMessage_sends (b : Dom.browser) (outcome : Dom.api_outcome)
    (p : Dom.page) :
  Js.trim (Dom.value p) <> EmptyString ->
  Dom.requests (ChatComponent.sendMessage b outcome p)
  = Dom.requests p ++ [Js.trim (Dom.value p)].
Proof.
  intros Hne. unfold ChatComponent.sendMessage.
  destruct (Js.trim (Dom.value p)) as [|ch rest] eqn:E; [done|].
  destruct p as [value height msgs [display|] disabled store sent];
    destruct outcome; reflexivity.
Qed.

(** ** [saveChatHistory] and [loadChatHistory] *)

Lemma enhanced_saveChatHistory (b : Dom.browser) (p : Dom.page) :
  ChatComponentEnhanced.saveChatHistory b p
  = ChatComponent.saveChatHistory b p.
Proof. reflexivity. Qed.

Lemma enhanced_loadChatHistory (b : Dom.browser) (p : Dom.page) :
  ChatComponentEnhanced.loadChatHistory b p
  = ChatComponent.loadChatHistory b p.
Proof. reflexivity. Qed.







(** The sample page, whose first message is a system message: saved and
    loaded into an empty page, it comes back as an assistant message. *)
Example system_message_comes_back_as_assistant :
  Dom.className <$>
    Dom.transcript
      (ChatComponent.loadChatHistory sample_browser
         (Dom.set_transcript []
            (ChatComponent.saveChatHistory sample_browser sample_page)))
  = ["message assistant"; "message user"; "message assistant"].
Proof. vm_compute. reflexivity. Qed.

(** ** The quality score *)

Lemma clamp_between (x : Z) : (0 <= Engine.clamp x 0 100 <= 100)%Z.
Proof. unfold Engine.clamp. lia. Qed.





(** The fields of an analysis, in terms of the steps of the engine. *)
Lemma analyze_fields (cfg : Engine.Config) (name content : string) :
  let a := Engine.analyze cfg name content in
  Engine.issues a = snd <$> Engine.found_issues cfg name content /\
  Engine.quality_score a
  = Engine.score cfg (Engine.metrics a) (Engine.issues a) /\
  Engine.language a = fst (Engine.language_mode cfg name) /\
  Engine.summary a
  = Engine.summary_line name (Engine.language a) (Engine.quality_score a).
Proof.
  unfold Engine.analyze, Engine.found_issues.
  destruct (Engine.language_mode cfg name) as [lang prefix]. simpl. done.
Qed.

Lemma analyze_score_between (cfg : Engine.Config) (name content : string) :
  (0 <= Engine.quality_score (Engine.analyze cfg name content) <= 100)%Z.
Proof.
  destruct (analyze_fields cfg name content) as (_ & -> & _).
  apply clamp_between.
Qed.

(** C1: for every input that decodes as text, whatever the file name, the
    quality score of the Analysis that single-file analyze produces lies
    between 0 and 100. *)
Theorem quality_score_in_range (cfg : Engine.Config) (name raw : string)
    (a : Engine.Analysis) :
  Engine.analyze_file cfg name raw = inr a ->
  (0 <= Engine.quality_score a <= 100)%Z.
Proof.
  unfold Engine.analyze_file.
  destruct (Engine.decode cfg raw) as [content|]; [|discriminate].
  intros [= <-]. apply analyze_score_between.
Qed.

Lemma quality_score_in_range_witness :
  exists a,
    Engine.analyze_file Reference.config "app.py" sample_source = inr a /\
    (0 <= Engine.quality_score a <= 100)%Z.
Proof.
  eexists. split; [reflexivity|].
  apply (quality_score_in_range Reference.config "app.py" sample_source).
  reflexivity.
Defined.

(** The scenario of the specification: two unused imports and a hardcoded
    secret on line 4 are reported and the score is below 100. *)
Example sample_source_analysis :
  let a := Engine.analyze Reference.config "app.py" sample_source in
  (fun i => (Engine.severity i, Engine.line i)) <$> Engine.issues a
  = [ (Engine.Info, Some 1); (Engine.Info, Some 2);
      (Engine.Critical, Some 4) ] /\
  Engine.quality_score a = 76%Z /\
  Engine.total_lines (Engine.metrics a) = 4.
Proof. vm_compute. done. Qed.



(** The two sample texts under both sample configurations: the added
    comment line carries one critical issue and lifts the share of comment
    lines above the threshold. *)
Example commented_secret_analysis :
  let warning :=
    {| Engine.severity := Engine.Warning; Engine.line := Some 1;
       Engine.message := "missing documentation"; Engine.file := None |} in
  let critical :=
    {| Engine.severity := Engine.Critical; Engine.line := Some 3;
       Engine.message := "hardcoded secret"; Engine.file := None |} in
  (forall cfg, cfg = Reference.config \/ cfg = Reference.generous_config ->
     Engine.issues (Engine.analyze cfg "app.py" plain_function) = [warning] /\
     Engine.issues (Engine.analyze cfg "app.py" commented_secret)
     = [critical; warning] /\
     Engine.comment_lines
       (Engine.metrics (Engine.analyze cfg "app.py" plain_function)) = 0 /\
     Engine.comment_lines
       (Engine.metrics (Engine.analyze cfg "app.py" commented_secret)) = 1) /\
  Engine.quality_score
    (Engine.analyze Reference.config "app.py" plain_function) = 90%Z /\
  Engine.quality_score
    (Engine.analyze Reference.config "app.py" commented_secret) = 75%Z.
Proof.
  split; [|split; reflexivity].
  intros cfg [->| ->]; vm_compute; done.
Qed.




(** ** Order of the issues *)

(** A detector scanning from line [n] on reports lines from [n] on, in
    strictly ascending order. *)
Lemma scan_from (d : Engine.Detector) (lang : string) (text : list string)
    (rest : list string) (n : nat) :
  Forall (fun i => n <= Engine.line_number i) (Engine.scan d lang text n rest).
Proof.
  revert n. induction rest as [|l rest IH]; intros n; simpl.
  - constructor.
  - assert (Forall (fun i => n <= Engine.line_number i)
              (Engine.scan d lang text (S n) rest)) as Hrest.
    { eapply Forall_impl; [apply IH|]. simpl. intros i Hi. lia. }
    destruct (Engine.rule d lang text n l) as [[sev msg]|]; [|exact Hrest].
    constructor; [reflexivity|exact Hrest].
Qed.

Lemma scan_ascending (d : Engine.Detector) (lang : string)
    (text : list string) (rest : list string) (n : nat) :
  StronglySorted (fun i j => Engine.line_number i < Engine.line_number j)
    (Engine.scan d lang text n rest).
Proof.
  revert n. induction rest as [|l rest IH]; intros n; simpl.
  - constructor.
  - destruct (Engine.rule d lang text n l) as [[sev msg]|]; [|apply IH].
    constructor; [apply IH|].
    eapply Forall_impl; [apply (scan_from d lang text rest (S n))|].
    intros i Hi. unfold Engine.line_number in *. simpl in *. lia.
Qed.

Lemma battery_positions (lang : string) (text : list string)
    (ds : list Engine.Detector) (k : nat) :
  Forall (fun e => k <= fst e) (Engine.run_battery k ds lang text).
Proof.
  revert k. induction ds as [|d ds IH]; intros k; simpl.
  - constructor.
  - apply Forall_app. split.
    + apply Forall_fmap, Forall_forall. intros i _. simpl. lia.
    + eapply Forall_impl; [apply IH|]. simpl. intros e He. lia.
Qed.

Lemma block_sorted (k : nat) (l : list Engine.Issue) :
  StronglySorted (fun i j => Engine.line_number i < Engine.line_number j) l ->
  StronglySorted Engine.key_lt (Engine.issue_key <$> (pair k <$> l)).
Proof.
  induction 1 as [|i l Hsorted IH Hall]; simpl; constructor; [exact IH|].
  apply Forall_fmap, Forall_fmap, Forall_forall. intros j Hj.
  rewrite Forall_forall in Hall. right. simpl. split; [reflexivity|].
  by apply Hall.
Qed.

(** The battery reports in detector-declaration order, then by ascending
    line number. *)
Lemma battery_sorted (lang : string) (text : list string)
    (ds : list Engine.Detector) (k : nat) :
  StronglySorted Engine.key_lt
    (Engine.issue_key <$> Engine.run_battery k ds lang text).
Proof.
  revert k. induction ds as [|d ds IH]; intros k; simpl.
  - constructor.
  - rewrite fmap_app. apply StronglySorted_app_2.
    + intros x1 x2 H1 H2.
      apply list_elem_of_fmap in H1 as (e1 & -> & H1).
      apply list_elem_of_fmap in H1 as (i1 & -> & _).
      apply list_elem_of_fmap in H2 as (e2 & -> & H2).
      pose proof (battery_positions lang text ds (S k)) as Hpos.
      rewrite Forall_forall in Hpos. apply Hpos in H2.
      left. simpl. lia.
    + apply block_sorted, scan_ascending.
    + apply IH.
Qed.

(** *** The order the detectors run in *)











Example sample_source_keys :
  Engine.issue_key
    <$> Engine.found_issues Reference.config "app.py" sample_source
  = [(0, 1); (0, 2); (1, 4)].
Proof. vm_compute. reflexivity. Qed.

(** ** The project aggregator *)

Lemma count_language_total (lang : string) (m : gmap string nat) :
  Project.language_total (Project.count_language lang m)
  = S (Project.language_total m).
Proof.
  unfold Project.language_total, Project.count_language.
  assert (forall (j1 j2 : string) (z1 z2 y : nat),
            z1 + (z2 + y) = z2 + (z1 + y)) as Hcomm by (intros; lia).
  destruct (m !! lang) as [n|] eqn:E; simpl.
  - rewrite (map_fold_delete_L _ _ lang n m); [|by intros; apply Hcomm|done].
    rewrite <- (insert_delete_eq m).
    rewrite map_fold_insert_L;
      [lia|by intros; apply Hcomm|apply lookup_delete_eq].
  - rewrite map_fold_insert_L; [lia|by intros; apply Hcomm|done].
Qed.

(** What one file adds to the totals. *)
Lemma add_file_decoded (cfg : Engine.Config) (t : Project.Totals)
    (path raw content : string) :
  Engine.decode cfg raw = Some content ->
  let t' := Project.add_file cfg t (path, raw) in
  Project.seen_files t' = S (Project.seen_files t) /\
  Project.skipped t' = Project.skipped t /\
  Project.language_total (Project.seen_languages t')
  = S (Project.language_total (Project.seen_languages t)).
Proof.
  intros Hdec. unfold Project.add_file, Engine.analyze_file.
  rewrite Hdec. simpl. rewrite count_language_total. done.
Qed.

Lemma add_file_undecodable (cfg : Engine.Config) (t : Project.Totals)
    (path raw : string) :
  Engine.decode cfg raw = None ->
  let t' := Project.add_file cfg t (path, raw) in
  Project.seen_files t' = Project.seen_files t /\
  Project.skipped t' = S (Project.skipped t) /\
  Project.seen_languages t' = Project.seen_languages t.
Proof.
  intros Hdec. unfold Project.add_file, Engine.analyze_file.
  rewrite Hdec. simpl. done.
Qed.

(** The per-language counts sum to the number of files counted, at every
    point of a scan. *)
Lemma scan_keeps_language_total (cfg : Engine.Config)
    (files : list (string * string)) (t : Project.Totals) :
  Project.language_total (Project.seen_languages t) = Project.seen_files t ->
  let t' := fold_left (Project.add_file cfg) files t in
  Project.language_total (Project.seen_languages t') = Project.seen_files t'.
Proof.
  revert t. induction files as [|[path raw] files IH]; intros t Ht.
  - exact Ht.
  - apply (IH (Project.add_file cfg t (path, raw))).
    destruct (Engine.decode cfg raw) as [content|] eqn:Hdec.
    + destruct (add_file_decoded cfg t path raw content Hdec)
        as (-> & _ & ->).
      by rewrite Ht.
    + destruct (add_file_undecodable cfg t path raw Hdec) as (-> & _ & ->).
      exact Ht.
Qed.

(** C4: in every ProjectAnalysis that project analyze produces, the
    per-language file counts sum to the number of files analyzed. *)
Theorem language_counts_sum_to_files_analyzed (cfg : Engine.Config)
    (su : Project.Setup) (path : string) (pa : Project.ProjectAnalysis) :
  Project.analyze_project cfg su path = inr pa ->
  Project.language_total (Project.languages (Project.summary pa))
  = Project.files_analyzed (Project.summary pa).
Proof.
  unfold Project.analyze_project.
  destruct (Project.walk su path) as [files|]; [|discriminate].
  intros [= <-]. simpl.
  apply (scan_keeps_language_total cfg files Project.no_totals).
  reflexivity.
Qed.

Lemma language_counts_sum_to_files_analyzed_witness :
  Project.language_total
    (Project.languages
       (Project.summary
          (Project.report Reference.setup "proj"
             (Project.scan_files Reference.config Reference.sample_files))))
  = 2.
Proof.
  rewrite (language_counts_sum_to_files_analyzed Reference.config
             Reference.setup "proj" _ eq_refl).
  reflexivity.
Defined.

(** The files counted are those that decode, the files skipped those that
    do not. *)
Lemma scan_counts (cfg : Engine.Config) (files : list (string * string))
    (t : Project.Totals) :
  let t' := fold_left (Project.add_file cfg) files t in
  Project.seen_files t'
  = Project.seen_files t
    + length (filter (fun f => is_Some (Engine.decode cfg f.2)) files) /\
  Project.skipped t'
  = Project.skipped t
    + length (filter (fun f => Engine.decode cfg f.2 = None) files).
Proof.
  revert t. induction files as [|[path raw] files IH]; intros t.
  - simpl. split; lia.
  - cbn [fold_left]. cbv zeta.
    destruct (IH (Project.add_file cfg t (path, raw))) as [Hseen Hskipped].
    cbv zeta in Hseen, Hskipped. rewrite Hseen, Hskipped.
    rewrite !filter_cons. cbn [snd].
    destruct (Engine.decode cfg raw) as [content|] eqn:Hdec.
    + destruct (add_file_decoded cfg t path raw content Hdec)
        as (-> & -> & _).
      rewrite decide_True by eauto. rewrite decide_False by done.
      simpl. split; lia.
    + destruct (add_file_undecodable cfg t path raw Hdec) as (-> & -> & _).
      rewrite decide_False by (intros [? ?]; done).
      rewrite decide_True by done.
      simpl. split; lia.
Qed.

(** C5: project analyze tolerates files that do not decode: the scan
    returns a ProjectAnalysis, not an error; it counts the files that
    decode and skips the others; in particular a directory with one
    undecodable file and two text files, discovered in any order, yields
    [files_analyzed = 2]. *)
Theorem project_scan_skips_undecodable_files (cfg : Engine.Config)
    (su : Project.Setup) (path : string) (files : list (string * string)) :
  Project.walk su path = Some files ->
  exists pa,
    Project.analyze_project cfg su path = inr pa /\
    Project.files_analyzed (Project.summary pa)
    = length (filter (fun f => is_Some (Engine.decode cfg f.2)) files) /\
    Project.files_skipped pa
    = length (filter (fun f => Engine.decode cfg f.2 = None) files) /\
    (forall binary text1 text2,
       files ≡ₚ [binary; text1; text2] ->
       Engine.decode cfg binary.2 = None ->
       is_Some (Engine.decode cfg text1.2) ->
       is_Some (Engine.decode cfg text2.2) ->
       Project.files_analyzed (Project.summary pa) = 2 /\
       Project.files_skipped pa = 1).
Proof.
  intros Hwalk. unfold Project.analyze_project. rewrite Hwalk.
  eexists. split; [reflexivity|]. simpl.
  destruct (scan_counts cfg files Project.no_totals) as [Hseen Hskipped].
  unfold Project.scan_files. rewrite Hseen, Hskipped. simpl.
  split; [reflexivity|]. split; [reflexivity|].
  intros binary text1 text2 Hperm Hbinary Htext1 Htext2.
  rewrite !Hperm, !filter_cons, !filter_nil.
  rewrite (decide_False (P := is_Some (Engine.decode cfg binary.2)))
    by (rewrite Hbinary; intros [? ?]; done).
  rewrite !(decide_True (P := is_Some _)) by done.
  rewrite (decide_True (P := Engine.decode cfg binary.2 = None)) by done.
  rewrite !(decide_False (P := _ = None))
    by (by apply not_eq_None_Some).
  split; reflexivity.
Qed.

Lemma project_scan_skips_undecodable_files_witness :
  exists pa,
    Project.analyze_project Reference.config Reference.setup "proj" = inr pa /\
    Project.files_analyzed (Project.summary pa) = 2 /\
    Project.files_skipped pa = 1.
Proof.
  destruct (project_scan_skips_undecodable_files Reference.config
              Reference.setup "proj" Reference.sample_files eq_refl)
    as (pa & Hpa & _ & _ & Hscenario).
  exists pa. split; [exact Hpa|].
  apply (Hscenario ("proj/logo.png", Reference.binary_blob)
           ("proj/a.py", "import os" +:+ String Engine.LF "x = 1")
           ("proj/b.js", "// entry" +:+ String Engine.LF "function f() {}")).
  - apply perm_swap.
  - reflexivity.
  - eexists. reflexivity.
  - eexists. reflexivity.
Defined.

(* ===================================================================== *)
(** * Part III: further properties of the dashboard code *)
(* ===================================================================== *)

(** ** More on strings *)

Lemma string_app_cons (c : ascii) (s t : string) :
  String c s +:+ t = String c (s +:+ t).
Proof. reflexivity. Qed.

Lemma string_app_assoc (s t u : string) : (s +:+ t) +:+ u = s +:+ (t +:+ u).
Proof.
  induction s as [|c s IH]; [reflexivity|].
  rewrite !string_app_cons. by rewrite IH.
Qed.

Lemma string_app_nil_r (s : string) : s +:+ EmptyString = s.
Proof.
  induction s as [|c s IH]; [reflexivity|].
  rewrite string_app_cons. by rewrite IH.
Qed.

Lemma string_app_length (s t : string) :
  String.length (s +:+ t) = String.length s + String.length t.
Proof.
  induction s as [|c s IH]; [reflexivity|].
  rewrite string_app_cons. simpl. by rewrite IH.
Qed.

(** Cutting at a separator: the pieces before it, then the pieces after
    it. *)
Lemma split_app_sep (sep : ascii) (s t : string) :
  Js.split sep (s +:+ String sep t) = Js.split sep s ++ Js.split sep t.
Proof.
  induction s as [|c s IH].
  - simpl. by rewrite Ascii.eqb_refl.
  - rewrite string_app_cons. simpl.
    destruct (Ascii.eqb c sep); rewrite IH; [reflexivity|].
    pose proof (split_not_empty sep s) as Hne.
    destruct (Js.split sep s) as [|piece pieces]; [done|reflexivity].
Qed.

(** A string without the separator is one piece. *)
Lemma split_no_sep (sep : ascii) (s : string) :
  sep ∉ Js.chars s -> Js.split sep s = [s].
Proof.
  induction s as [|c s IH]; simpl; [reflexivity|].
  intros Hnot. apply not_elem_of_cons in Hnot as [Hc Hs].
  destruct (Ascii.eqb_spec c sep) as [->|_]; [done|].
  by rewrite IH.
Qed.

(** ** More on [escapeHtml] *)

(** The entity of a character, by cases. *)
Lemma entity_cases (c : ascii) :
  (c = "&"%char /\ Ui.entity c = "&amp;") \/
  (c = "<"%char /\ Ui.entity c = "&lt;") \/
  (c = ">"%char /\ Ui.entity c = "&gt;") \/
  (c = Ui.quot /\ Ui.entity c = "&quot;") \/
  (c = Ui.apos /\ Ui.entity c = "&#039;") \/
  (Ui.escape_class c = false /\ c <> "&"%char /\
   Ui.entity c = String c EmptyString).
Proof.
  unfold Ui.entity, Ui.escape_class.
  destruct (Ascii.eqb_spec c "&"); [by left|right].
  destruct (Ascii.eqb_spec c "<"); [by left|right].
  destruct (Ascii.eqb_spec c ">"); [by left|right].
  destruct (Ascii.eqb_spec c Ui.quot); [by left|right].
  destruct (Ascii.eqb_spec c Ui.apos); [by left|right].
  done.
Qed.

Ltac entity_case c H :=
  destruct (entity_cases c) as
    [[-> H]|[[-> H]|[[-> H]|[[-> H]|[[-> H]|(? & ? & H)]]]]];
  rewrite H.

(** Two escaped texts that agree start with the same character. *)
Lemma entity_head_inj (c d : ascii) (x y : string) :
  Ui.entity c +:+ x = Ui.entity d +:+ y -> c = d /\ x = y.
Proof.
  entity_case c Hc; entity_case d Hd; cbv [String.append]; intros Heq;
    try discriminate; try (injection Heq as <-; done);
    try (injection Heq as ->; done);
    try (injection Heq as -> ->; done);
    try (by injection Heq as ->).
Qed.

Lemma escapeHtml_length (s : string) :
  String.length s <= String.length (Ui.escapeHtml s).
Proof.
  induction s as [|c s IH]; [done|].
  rewrite escapeHtml_cons, string_app_length. simpl.
  assert (1 <= String.length (Ui.entity c)); [|lia].
  entity_case c Hc; simpl; lia.
Qed.

(** X1: [escapeHtml] is injective: two texts with the same escaped form are
    the same text, so escaping loses no information. *)
Theorem escapeHtml_injective (s t : string) :
  Ui.escapeHtml s = Ui.escapeHtml t -> s = t.
Proof.
  revert t. induction s as [|c s IH]; intros [|d t].
  - done.
  - rewrite escapeHtml_cons. intros Heq. exfalso. revert Heq.
    entity_case d Hd; discriminate.
  - rewrite escapeHtml_cons. intros Heq. exfalso. revert Heq.
    entity_case c Hc; discriminate.
  - rewrite !escapeHtml_cons. intros Heq.
    apply entity_head_inj in Heq as [-> Heq].
    f_equal. by apply IH.
Qed.

Lemma escapeHtml_injective_witness :
  Ui.escapeHtml "a<b" = Ui.escapeHtml "a<b" /\ "a<b" = "a<b".
Proof.
  split; [reflexivity|].
  apply (escapeHtml_injective "a<b" "a<b"). reflexivity.
Defined.

(** X2: [escapeHtml] returns its argument unchanged exactly when the
    argument contains none of the five special characters. *)
Theorem escapeHtml_unchanged_iff (s : string) :
  Ui.escapeHtml s = s <->
  forallb (fun c => negb (Ui.escape_class c)) (Js.chars s) = true.
Proof.
  induction s as [|c s IH]; [done|].
  rewrite escapeHtml_cons. simpl. rewrite andb_true_iff, <- IH.
  pose proof (escapeHtml_length s) as Hlen.
  destruct (entity_cases c) as
    [[-> H]|[[-> H]|[[-> H]|[[-> H]|[[-> H]|(Hclass & _ & H)]]]]];
    rewrite H; cbv [String.append]; simpl.
  - split; [|intros [? _]; discriminate].
    intros [= Heq]. exfalso.
    apply (f_equal String.length) in Heq. simpl in Heq. lia.
  - split; [discriminate|intros [? _]; discriminate].
  - split; [discriminate|intros [? _]; discriminate].
  - split; [discriminate|intros [? _]; discriminate].
  - split; [discriminate|intros [? _]; discriminate].
  - rewrite Hclass. simpl. split.
    + intros [= Heq]. done.
    + intros [_ ->]. reflexivity.
Qed.

(** X3: escaping a concatenation is concatenating the escaped parts. *)
Theorem escapeHtml_append (s t : string) :
  Ui.escapeHtml (s +:+ t) = Ui.escapeHtml s +:+ Ui.escapeHtml t.
Proof.
  induction s as [|c s IH]; [reflexivity|].
  change (String c s +:+ t) with (String c (s +:+ t)).
  rewrite !escapeHtml_cons, IH. by rewrite string_app_assoc.
Qed.

(** ** More on [getLanguageFromFile] *)

(** The extension looked up is the text after the last dot, lowered. *)
Lemma extension_of_dotted (stem ext : string) :
  "."%char ∉ Js.chars ext ->
  ChatComponent.extension_of (stem +:+ String "." ext) = Js.toLowerCase ext.
Proof.
  intros Hdot. unfold ChatComponent.extension_of, Js.pop.
  rewrite split_app_sep, (split_no_sep "." ext Hdot), last_snoc.
  reflexivity.
Qed.

Lemma extension_of_plain (name : string) :
  "."%char ∉ Js.chars name ->
  ChatComponent.extension_of name = Js.toLowerCase name.
Proof.
  intros Hdot. unfold ChatComponent.extension_of, Js.pop.
  by rewrite (split_no_sep "." name Hdot).
Qed.

(** X4: the language of a file depends only on what follows the last dot
    of its name, and not on the case of those letters: two names whose
    dot-free endings agree up to case get the same answer. *)
Theorem getLanguageFromFile_by_last_extension
    (stem1 stem2 ext1 ext2 : string) :
  "."%char ∉ Js.chars ext1 ->
  "."%char ∉ Js.chars ext2 ->
  Js.toLowerCase ext1 = Js.toLowerCase ext2 ->
  ChatComponent.getLanguageFromFile (stem1 +:+ String "." ext1)
  = ChatComponent.getLanguageFromFile (stem2 +:+ String "." ext2) /\
  ChatComponent.getLanguageFromFile (stem1 +:+ String "." ext1)
  = ChatComponent.getLanguageFromFile ext2 /\
  ChatComponentEnhanced.getLanguageFromFile (stem1 +:+ String "." ext1)
  = ChatComponentEnhanced.getLanguageFromFile (stem2 +:+ String "." ext2).
Proof.
  intros Hdot1 Hdot2 Hcase.
  assert (ChatComponent.getLanguageFromFile (stem1 +:+ String "." ext1)
          = ChatComponent.getLanguageFromFile (stem2 +:+ String "." ext2))
    as Hsame.
  { rewrite !getLanguageFromFile_unfold.
    rewrite (extension_of_dotted stem1 ext1 Hdot1),
      (extension_of_dotted stem2 ext2 Hdot2).
    by rewrite Hcase. }
  split; [exact Hsame|]. split; [|exact Hsame].
  rewrite !getLanguageFromFile_unfold.
  rewrite (extension_of_dotted stem1 ext1 Hdot1),
    (extension_of_plain ext2 Hdot2).
  by rewrite Hcase.
Qed.

Lemma getLanguageFromFile_by_last_extension_witness :
  ChatComponent.getLanguageFromFile "src/app.test.PY"
  = ChatComponent.getLanguageFromFile "setup.py".
Proof.
  apply (getLanguageFromFile_by_last_extension "src/app.test" "setup"
           "PY" "py"); [| |reflexivity];
    intros Hin; apply list_elem_of_In in Hin; simpl in Hin;
    repeat (destruct Hin as [Hin|Hin]; [discriminate|]); done.
Defined.

(** X5: [getLanguageFromFile] never throws and never answers [undefined]
    or the empty string; an extension of the table gives its tag, and an
    extension that is neither in the table nor the name of a property
    inherited from [Object.prototype] gives ["text"]. *)
Theorem getLanguageFromFile_answers (filename : string) :
  (exists v,
     ChatComponent.getLanguageFromFile filename = Js.Normal v /\
     Js.truthy v = true) /\
  (forall tag,
     ChatComponent.languages !! ChatComponent.extension_of filename
       = Some (Js.Str tag) ->
     ChatComponent.getLanguageFromFile filename = Js.Normal (Js.Str tag)) /\
  (ChatComponent.languages !! ChatComponent.extension_of filename = None ->
   Js.object_prototype !! ChatComponent.extension_of filename = None ->
   ChatComponent.getLanguageFromFile filename = Js.Normal (Js.Str "text")).
Proof.
  split; [|split].
  - rewrite getLanguageFromFile_unfold. eexists. split; [reflexivity|].
    unfold Js.or_else.
    destruct (Js.truthy (Js.get _ _)) eqn:E; [exact E|reflexivity].
  - intros tag Hin. apply getLanguageFromFile_known; [exact Hin|].
    intros ->. revert Hin.
    unfold ChatComponent.languages, Js.literal.
    intros Hin. apply elem_of_list_to_map_2 in Hin.
    apply list_elem_of_In in Hin. simpl in Hin.
    repeat (destruct Hin as [Hin|Hin]; [discriminate|]). done.
  - apply getLanguageFromFile_fallback.
Qed.

(** ** More on [ChatComponent.sendMessage] *)

(** X6: with an input that does not trim to the empty string,
    [ChatComponent.sendMessage] posts exactly one request, whose message is
    the trimmed input as read from the textarea, empties the input field,
    appends the user message followed by one reply (the assistant's
    answer, or a system message carrying the error) and ends with the
    spinner hidden.  For a successful call this is stated for exchanges
    without markup (every message so far set through [textContent], no
    code fence in input or answer), where [saveChatHistory] cannot
    throw. *)
Theorem sendMessage_effects (b : Dom.browser) (outcome : Dom.api_outcome)
    (p : Dom.page) :
  Js.trim (Dom.value p) <> EmptyString ->
  (forall response,
     outcome = Dom.Success response ->
     Forall (fun el => Dom.text_only el = true) (Dom.transcript p) /\
     Js.includes "```" (Js.trim (Dom.value p)) = false /\
     Js.includes "```" response = false) ->
  let message := Js.trim (Dom.value p) in
  let p' := ChatComponent.sendMessage b outcome p in
  Dom.requests p' = Dom.requests p ++ [message] /\
  Dom.input_value p' = EmptyString /\
  Dom.transcript p'
  = Dom.transcript p
    ++ [ Ui.message_element b message "user";
         match outcome with
         | Dom.Success response =>
             Ui.message_element b response "assistant"
         | Dom.Failure msg =>
             Ui.message_element b ("Error: " +:+ msg) "system"
         | Dom.Rejected msg =>
             Ui.message_element b ("Connection error: " +:+ msg) "system"
         end ] /\
  Dom.spinner p' = (fun _ => "none") <$> Dom.spinner p.
Proof.
  intros Hne _. unfold ChatComponent.sendMessage.
  destruct (Js.trim (Dom.value p)) as [|ch rest] eqn:E; [done|].
  destruct p as [value height msgs [display|] disabled store sent];
    destruct outcome; simpl; rewrite <- ?app_assoc; done.
Qed.

Lemma sendMessage_effects_witness :
  Dom.requests
    (ChatComponent.sendMessage sample_browser (Dom.Failure "model busy")
       (Dom.set_input " explain this " "40px" sample_page))
  = ["explain this"].
Proof.
  apply (sendMessage_effects sample_browser (Dom.Failure "model busy")
           (Dom.set_input " explain this " "40px" sample_page)).
  - discriminate.
  - discriminate.
Defined.

(** X7: [ChatComponent.sendMessage] writes the chat history only when the
    call succeeds; after a failed or rejected call local storage is as
    before, so the error message it displayed is not persisted by this
    call.  After a successful exchange without markup (every message so
    far set through [textContent], no code fence in input or answer) the
    history holds one record per message of the new transcript.  The
    stored settings are not touched. *)
Theorem sendMessage_saves_on_success_only (b : Dom.browser)
    (outcome : Dom.api_outcome) (p : Dom.page) :
  Js.trim (Dom.value p) <> EmptyString ->
  (forall response,
     outcome = Dom.Success response ->
     Forall (fun el => Dom.text_only el = true) (Dom.transcript p) /\
     Js.includes "```" (Js.trim (Dom.value p)) = false /\
     Js.includes "```" response = false) ->
  let p' := ChatComponent.sendMessage b outcome p in
  match outcome with
  | Dom.Success _ =>
      Dom.chatHistory (Dom.local_storage p')
      = Some (imap (ChatComponent.saved_record b) (Dom.transcript p')) /\
      length (default [] (Dom.chatHistory (Dom.local_storage p')))
      = length (Dom.transcript p) + 2 /\
      Forall (fun el => Dom.text_only el = true) (Dom.transcript p')
  | _ => Dom.local_storage p' = Dom.local_storage p
  end /\
  Dom.chatSettings (Dom.local_storage p')
  = Dom.chatSettings (Dom.local_storage p).
Proof.
  intros Hne Hflat. unfold ChatComponent.sendMessage.
  destruct (Js.trim (Dom.value p)) as [|ch rest] eqn:E; [done|].
  destruct outcome as [response|msg|msg].
  2, 3: destruct p as [value height msgs [display|] disabled store sent];
    simpl; done.
  destruct (Hflat response eq_refl) as (Hplain & Hmessage & Hresponse).
  assert (Forall (fun el => Dom.text_only el = true)
            ((Dom.transcript p ++ [Ui.message_element b (String ch rest) "user"])
               ++ [Ui.message_element b response "assistant"])) as Hnew.
  { rewrite !Forall_app. split; [split; [exact Hplain|]|].
    - constructor; [|constructor].
      unfold Dom.text_only, Ui.message_element. cbn [Dom.body].
      by rewrite Hmessage.
    - constructor; [|constructor].
      unfold Dom.text_only, Ui.message_element. cbn [Dom.body].
      by rewrite Hresponse. }
  destruct p as [value height msgs [display|] disabled store sent];
    simpl in *; rewrite ?length_imap, ?length_app; simpl;
    (split; [|done]); (split; [done|]); (split; [lia|exact Hnew]).
Qed.

Lemma sendMessage_saves_on_success_only_witness :
  Dom.local_storage
    (ChatComponent.sendMessage sample_browser (Dom.Rejected "HTTP 500")
       (Dom.set_input "hello" "40px" sample_page))
  = Dom.local_storage sample_page.
Proof.
  apply (sendMessage_saves_on_success_only sample_browser
           (Dom.Rejected "HTTP 500")
           (Dom.set_input "hello" "40px" sample_page)).
  - discriminate.
  - discriminate.
Defined.

(** ** More on [ChatComponentEnhanced.sendMessage] *)

(** X8: while a response is streaming, [ChatComponentEnhanced.sendMessage]
    does nothing, whatever the input field holds. *)
Theorem enhanced_sendMessage_ignored_while_streaming (b : Dom.browser)
    (outcome : Dom.api_outcome) (picked : list string)
    (c : ChatComponentEnhanced.component) (p : Dom.page) :
  ChatComponentEnhanced.isStreaming c = true ->
  ChatComponentEnhanced.sendMessage b outcome picked (c, p) = (c, p).
Proof.
  intros Hstreaming. unfold ChatComponentEnhanced.sendMessage.
  rewrite Hstreaming. by rewrite orb_true_r.
Qed.

Lemma enhanced_sendMessage_ignored_while_streaming_witness :
  ChatComponentEnhanced.sendMessage sample_browser (Dom.Success "ok")
    ["Show me an example"; "How do I implement this?"]
    ({| ChatComponentEnhanced.isStreaming := true;
        ChatComponentEnhanced.currentMessageElement := Some 2 |},
     Dom.set_input "one more question" "40px" sample_page)
  = ({| ChatComponentEnhanced.isStreaming := true;
        ChatComponentEnhanced.currentMessageElement := Some 2 |},
     Dom.set_input "one more question" "40px" sample_page).
Proof.
  apply (enhanced_sendMessage_ignored_while_streaming sample_browser
           (Dom.Success "ok")
           ["Show me an example"; "How do I implement this?"]).
  reflexivity.
Defined.

(** Writing to the message that [createMessageElement] has just
    appended. *)
Lemma lookup_appended {A} (l : list A) (x : A) :
  (l ++ [x]) !! length l = Some x.
Proof. by apply list_lookup_middle. Qed.

Lemma insert_appended {A} (l : list A) (x y : A) :
  <[length l := y]> (l ++ [x]) = l ++ [y].
Proof.
  rewrite insert_app_r_alt by lia.
  by replace (length l - length l) with 0 by lia.
Qed.

(** X9: with a non-blank input and no response streaming,
    [ChatComponentEnhanced.sendMessage] posts one request with the trimmed
    input as read from the textarea, empties the input field, leaves the
    component not streaming and pointing at the assistant message it
    created, and re-enables the send button, whatever the outcome.  When
    the call fails or is rejected in an exchange without markup (every
    message so far set through [textContent], no code fence in the
    input), the transcript gains the user message and one assistant
    message that carries the error text and the picked suggestions, and
    the history is saved, error included. *)
Theorem enhanced_sendMessage_effects (b : Dom.browser)
    (outcome : Dom.api_outcome) (picked : list string)
    (c : ChatComponentEnhanced.component) (p : Dom.page) :
  Js.trim (Dom.value p) <> EmptyString ->
  ChatComponentEnhanced.isStreaming c = false ->
  let message := Js.trim (Dom.value p) in
  let s' := ChatComponentEnhanced.sendMessage b outcome picked (c, p) in
  Dom.requests s'.2 = Dom.requests p ++ [message] /\
  Dom.input_value s'.2 = EmptyString /\
  ChatComponentEnhanced.isStreaming s'.1 = false /\
  ChatComponentEnhanced.currentMessageElement s'.1
  = Some (S (length (Dom.transcript p))) /\
  Dom.send_disabled s'.2 = false /\
  (forall msg,
     outcome = Dom.Failure msg \/ outcome = Dom.Rejected msg ->
     Forall (fun el => Dom.text_only el = true) (Dom.transcript p) ->
     Js.includes "```" message = false ->
     Dom.transcript s'.2
     = Dom.transcript p
       ++ [ Ui.message_element b message "user";
            {| Dom.className := "message assistant";
               Dom.body := Dom.TextContent ("Error: " +:+ msg);
               Dom.followups := [picked] |} ] /\
     Dom.chatHistory (Dom.local_storage s'.2)
     = Some (imap (ChatComponentEnhanced.saved_record b)
               (Dom.transcript s'.2))).
Proof.
  intros Hne Hidle. unfold ChatComponentEnhanced.sendMessage.
  rewrite Hidle.
  destruct (Js.trim (Dom.value p)) as [|ch rest] eqn:E; [done|].
  set (message := String ch rest).
  destruct c as [streaming current].
  destruct p as [value height msgs display disabled store sent].
  cbn [negb Js.truthy orb].
  unfold ChatComponentEnhanced.createMessageElement,
    ChatComponentEnhanced.getStreamingResponse,
    ChatComponentEnhanced.showFollowUpSuggestions,
    ChatComponentEnhanced.set_current_body,
    ChatComponentEnhanced.saveChatHistory,
    Ui.addChatMessage, Ui.showLoading, Ui.hideLoading.
  cbn [Dom.transcript Dom.set_transcript Dom.set_input Dom.spinner
       ChatComponentEnhanced.currentMessageElement
       ChatComponentEnhanced.isStreaming].
  assert (length (msgs ++ [Ui.message_element b message "user"])
          = S (length msgs)) as Hlen by (rewrite length_app; simpl; lia).
  destruct display as [d|], outcome as [response|msg|msg];
    cbn [Dom.transcript Dom.set_transcript Dom.set_input Dom.spinner
         Dom.set_spinner Dom.set_send_disabled Dom.set_requests
         Dom.set_storage Dom.requests Dom.input_value Dom.send_disabled
         Dom.local_storage Dom.chatHistory Dom.input_height
         ChatComponentEnhanced.currentMessageElement
         ChatComponentEnhanced.isStreaming fst snd];
    rewrite ?lookup_appended;
    cbn [Dom.transcript Dom.set_transcript Dom.className Dom.followups
         Dom.body];
    rewrite ?insert_appended, ?lookup_appended;
    cbn [Dom.transcript Dom.set_transcript Dom.set_spinner Dom.spinner
         Dom.set_send_disabled Dom.set_requests Dom.set_storage
         Dom.requests Dom.input_value Dom.send_disabled Dom.local_storage
         Dom.chatHistory Dom.className Dom.followups Dom.body fst snd
         ChatComponentEnhanced.currentMessageElement
         ChatComponentEnhanced.isStreaming];
    rewrite ?insert_appended, ?Hlen, <- ?app_assoc;
    (split; [reflexivity|]); (split; [reflexivity|]);
    (split; [reflexivity|]); (split; [reflexivity|]);
    (split; [reflexivity|]);
    intros msg' [[= Hmsg]|[= Hmsg]] _ _; subst; done.
Qed.

Lemma enhanced_sendMessage_effects_witness :
  Dom.requests
    (ChatComponentEnhanced.sendMessage sample_browser (Dom.Rejected "HTTP 500")
       ["Show me an example"; "How do I implement this?"]
       (sample_component, Dom.set_input " why? " "40px" sample_page)).2
  = ["why?"].
Proof.
  apply (enhanced_sendMessage_effects sample_browser (Dom.Rejected "HTTP 500")
           ["Show me an example"; "How do I implement this?"]
           sample_component (Dom.set_input " why? " "40px" sample_page)).
  - discriminate.
  - reflexivity.
Defined.

(** ** More on [loadChatHistory] and [saveChatHistory] *)

(** Replaying a history changes the transcript and nothing else. *)
Lemma replay_page (b : Dom.browser) (l : list Dom.history_record)
    (q : Dom.page) :
  fold_left
    (fun q msg => Ui.addChatMessage b (Dom.content_text msg) (Dom.role msg) q)
    l q
  = Dom.set_transcript
      (Dom.transcript q
       ++ ((fun msg =>
              Ui.message_element b (Dom.content_text msg) (Dom.role msg))
             <$> l)) q.
Proof.
  revert q. induction l as [|m l IH]; intros q; simpl.
  - rewrite app_nil_r. by destruct q.
  - rewrite IH. unfold Ui.addChatMessage. destruct q; simpl.
    by rewrite <- app_assoc.
Qed.

(** X10: [loadChatHistory] leaves the page alone when the stored settings
    switch [autoSave] off or when no message is stored; otherwise (settings
    absent, or [autoSave] on) it discards the transcript on the page and
    replaces it by one message per stored record, in order, touching
    nothing else. *)
Theorem loadChatHistory_replaces_transcript (b : Dom.browser) (p : Dom.page) :
  let enabled :=
    match Dom.chatSettings (Dom.local_storage p) with
    | Some s => Dom.autoSave s
    | None => true
    end in
  let history := default [] (Dom.chatHistory (Dom.local_storage p)) in
  let p' := ChatComponent.loadChatHistory b p in
  ChatComponentEnhanced.loadChatHistory b p = p' /\
  (enabled = false \/ history = [] -> p' = p) /\
  (enabled = true -> history <> [] ->
   p' = Dom.set_transcript
          ((fun msg =>
              Ui.message_element b (Dom.content_text msg) (Dom.role msg))
             <$> history) p /\
   length (Dom.transcript p') = length history).
Proof.
  intros enabled history p'. split; [reflexivity|].
  subst enabled history p'. unfold ChatComponent.loadChatHistory.
  destruct (Dom.chatSettings (Dom.local_storage p)) as [[enabled]|];
    simpl; [destruct enabled; simpl|].
  2: { split; [done|discriminate]. }
  all: destruct (default [] (Dom.chatHistory (Dom.local_storage p)))
         as [|msg h] eqn:E.
  all: split; [try done; by intros [?|?]|intros _ Hhistory; try done].
  all: rewrite replay_page; simpl; split; [reflexivity|].
  all: by rewrite length_fmap.
Qed.

(** A plain user or assistant message is saved and replayed as itself. *)
Lemma plain_message_round_trip (b : Dom.browser) (i : nat)
    (text role : string) :
  role = "user" \/ role = "assistant" ->
  Js.includes "```" text = false ->
  let saved :=
    ChatComponent.saved_record b i (Ui.message_element b text role) in
  Ui.message_element b (Dom.content_text saved) (Dom.role saved)
  = Ui.message_element b text role.
Proof.
  intros Hrole Hplain.
  unfold ChatComponent.saved_record, Dom.textContent, Ui.message_element.
  cbn [Dom.body Dom.role Dom.content_text]. rewrite Hplain.
  destruct Hrole as [-> | ->].
  - change (Dom.classList _) with ["message"; "user"].
    rewrite bool_decide_eq_true_2 by (right; left).
    by rewrite Hplain.
  - change (Dom.classList _) with ["message"; "assistant"].
    rewrite bool_decide_eq_false_2; [by rewrite Hplain|].
    intros Hin. apply list_elem_of_In in Hin. simpl in Hin.
    destruct Hin as [Hin|[Hin|[]]]; discriminate.
Qed.

(** X11: round trip of the chat history.  When the transcript is not empty
    and consists of user and assistant messages without code fences, and
    the stored settings do not switch [autoSave] off, saving the history
    and loading it into any page brings back exactly that transcript. *)
Theorem chat_history_round_trip (b : Dom.browser) (p fresh : Dom.page) :
  Dom.transcript p <> [] ->
  Dom.chatSettings (Dom.local_storage p)
    <> Some {| Dom.autoSave := false |} ->
  Forall (fun el =>
            exists text role,
              el = Ui.message_element b text role /\
              (role = "user" \/ role = "assistant") /\
              Js.includes "```" text = false)
    (Dom.transcript p) ->
  Dom.transcript
    (ChatComponent.loadChatHistory b
       (Dom.set_storage
          (Dom.local_storage (ChatComponent.saveChatHistory b p)) fresh))
  = Dom.transcript p.
Proof.
  intros Hne Hon Hplain.
  unfold ChatComponent.loadChatHistory, ChatComponent.saveChatHistory.
  cbn [Dom.local_storage Dom.set_storage Dom.chatSettings Dom.chatHistory
       default from_option id].
  assert (negb (Dom.autoSave
                  (default {| Dom.autoSave := true |}
                     (Dom.chatSettings (Dom.local_storage p)))) = false)
    as ->.
  { destruct (Dom.chatSettings (Dom.local_storage p)) as [[[|]]|]; done. }
  destruct (imap _ (Dom.transcript p)) as [|r rs] eqn:E.
  { apply (f_equal length) in E. rewrite length_imap in E.
    destruct (Dom.transcript p); [done|discriminate]. }
  rewrite <- E. clear E r rs.
  rewrite replay_page. cbn [Dom.transcript Dom.set_transcript app].
  apply list_eq. intros i.
  rewrite list_lookup_fmap, list_lookup_imap.
  destruct (Dom.transcript p !! i) as [el|] eqn:Hel; [|reflexivity].
  simpl. f_equal.
  rewrite Forall_forall in Hplain.
  destruct (Hplain el) as (text & role & -> & Hrole & Htext).
  { by apply list_elem_of_lookup_2 in Hel. }
  exact (plain_message_round_trip b i text role Hrole Htext).
Qed.

Lemma chat_history_round_trip_witness :
  Dom.transcript
    (ChatComponent.loadChatHistory sample_browser
       (Dom.set_storage
          (Dom.local_storage
             (ChatComponent.saveChatHistory sample_browser
                (Dom.set_transcript
                   [ Ui.message_element sample_browser "hello" "user";
                     Ui.message_element sample_browser "hi" "assistant" ]
                   sample_page)))
          sample_page))
  = [ Ui.message_element sample_browser "hello" "user";
      Ui.message_element sample_browser "hi" "assistant" ].
Proof.
  apply (chat_history_round_trip sample_browser
           (Dom.set_transcript
              [ Ui.message_element sample_browser "hello" "user";
                Ui.message_element sample_browser "hi" "assistant" ]
              sample_page) sample_page).
  - discriminate.
  - discriminate.
  - repeat constructor.
    + exists "hello", "user". split; [reflexivity|]. split; [by left|].
      reflexivity.
    + exists "hi", "assistant". split; [reflexivity|].
      split; [by right|]. reflexivity.
Defined.

(** ** More on [displayProjectAnalysis] *)

(** X12: the heading of the issue table announces all issues of the
    response while the table shows at most 20 of them: with more than 20
    issues the heading counts more issues than there are rows.  Without
    issues (an empty or absent list) the page gets no issue section. *)
Theorem project_issue_heading_counts_all (container : bool)
    (r : Analyzer.response) (v : Analyzer.view) :
  Analyzer.displayProjectAnalysis container r = Some v ->
  let l := default [] (Analyzer.issues r) in
  (l = [] -> Analyzer.issues_section v = None) /\
  (l <> [] ->
   exists rows,
     Analyzer.issues_section v = Some (length l, rows) /\
     length rows = Nat.min 20 (length l) /\
     (20 < length l -> length rows < length l)).
Proof.
  unfold Analyzer.displayProjectAnalysis.
  destruct container; simpl; [|discriminate].
  intros [= <-]. simpl.
  destruct (default [] (Analyzer.issues r)) as [|i l] eqn:E.
  - split; [done|]. intros Hne. done.
  - split; [discriminate|]. intros _. eexists. split; [reflexivity|].
    unfold Analyzer.issue_rows, Analyzer.slice_from_start.
    rewrite length_fmap, length_take. split; [reflexivity|lia].
Qed.

Lemma project_issue_heading_counts_all_witness :
  exists v rows,
    Analyzer.displayProjectAnalysis true sample_response = Some v /\
    Analyzer.issues_section v = Some (25, rows) /\
    length rows = 20.
Proof.
  eexists _, _. split; [reflexivity|].
  destruct (project_issue_heading_counts_all true sample_response _ eq_refl)
    as [_ Hsome].
  destruct Hsome as (rows & Hsection & Hlen & _); [discriminate|].
  split; [reflexivity|]. reflexivity.
Defined.

(** ** [streamText] *)

Lemma stream_words_result (b : Dom.browser) (words : list string)
    (shown : string) :
  (Streaming.stream_words b shown words).1
  = shown +:+ Js.concat ((fun w => w +:+ " ") <$> words) /\
  length (Streaming.stream_words b shown words).2 = length words.
Proof.
  revert shown. induction words as [|w ws IH]; intros shown; simpl.
  - by rewrite string_app_nil_r.
  - destruct (IH (shown +:+ w +:+ " ")) as [Hfinal Hframes].
    destruct (Streaming.stream_words b (shown +:+ w +:+ " ") ws)
      as [final frames].
    simpl in *. rewrite Hfinal, Hframes.
    by rewrite !string_app_assoc.
Qed.

(** Putting a space after every piece of [split(' ')] gives the text back,
    with one more space. *)
Lemma join_split_space (text : string) :
  Js.concat ((fun w => w +:+ " ") <$> Js.split " " text) = text +:+ " ".
Proof.
  induction text as [|c s IH]; [reflexivity|].
  rewrite string_app_cons, <- IH. simpl.
  destruct (Ascii.eqb_spec c " ") as [->|_]; [reflexivity|].
  pose proof (split_not_empty " " s) as Hne.
  destruct (Js.split " " s) as [|piece pieces]; [done|reflexivity].
Qed.

(** X13: [streamText] shows one frame per piece of the text cut at its
    spaces and leaves the current message with the markup of the whole
    text followed by one space; the response branch of
    [getStreamingResponse] leaves exactly that content in the message. *)
Theorem streamText_final_content (b : Dom.browser) (text message : string)
    (c : ChatComponentEnhanced.component) (p : Dom.page) :
  (Streaming.streamText b text).2
  = Dom.InnerHTML (Dom.parseMarkdown b (text +:+ " ")) /\
  length (Streaming.streamText b text).1 = length (Js.split " " text) /\
  (ChatComponentEnhanced.getStreamingResponse b (Dom.Success text) message
     (c, p)).2
  = ChatComponentEnhanced.set_current_body c (Streaming.streamText b text).2
      (Dom.set_requests (Dom.requests p ++ [message])
         (Dom.set_send_disabled true p)).
Proof.
  unfold Streaming.streamText.
  destruct (stream_words_result b (Js.split " " text) EmptyString)
    as [Hfinal Hframes].
  destruct (Streaming.stream_words b EmptyString (Js.split " " text))
    as [final frames].
  simpl in Hfinal, Hframes. rewrite join_split_space in Hfinal.
  subst final. simpl. split; [reflexivity|]. split; [exact Hframes|].
  reflexivity.
Qed.

Example streamText_frames_sample :
  (Streaming.streamText sample_browser "use a **map** here").1
  = [ Dom.TextContent "use ";
      Dom.TextContent "use a ";
      Dom.InnerHTML "use a **map** ";
      Dom.InnerHTML "use a **map** here " ].
Proof. reflexivity. Qed.

(** ** [handleFileSelect] and [captureScreen] *)

(** The fenced block starts and ends with a backquote. *)
Lemma fenced_shape (lang : Js.value) (content : string) :
  ChatActions.fenced lang content
  = String "`"
      (("``" +:+ Js.to_string lang +:+ ChatActions.LF +:+ content
          +:+ ChatActions.LF +:+ "``") +:+ String "`" EmptyString).
Proof.
  unfold ChatActions.fenced. rewrite !string_app_assoc. reflexivity.
Qed.

Lemma fenced_trim (lang : Js.value) (content : string) :
  Js.trim (Js.normalize_newlines (ChatActions.fenced lang content))
  = Js.normalize_newlines (ChatActions.fenced lang content).
Proof. rewrite fenced_shape. by apply trim_normalize_kept. Qed.

Lemma fenced_includes_fence (lang : Js.value) (content : string) :
  Js.includes "```"
    (Js.normalize_newlines (ChatActions.fenced lang content)) = true.
Proof.
  unfold ChatActions.fenced.
  change ("```" +:+ ?x) with (String "`" (String "`" (String "`" x))).
  by rewrite !(normalize_other "`").
Qed.

(** The message [sendMessage] appends first is the user's, rendered from
    the trimmed input. *)
Lemma sendMessage_user_message (b : Dom.browser)
    (outcome : Dom.api_outcome) (p : Dom.page) :
  Js.trim (Dom.value p) <> EmptyString ->
  Dom.transcript (ChatComponent.sendMessage b outcome p)
    !! length (Dom.transcript p)
  = Some (Ui.message_element b (Js.trim (Dom.value p)) "user").
Proof.
  intros Hne. unfold ChatComponent.sendMessage.
  destruct (Js.trim (Dom.value p)) as [|ch rest] eqn:E; [done|].
  destruct p as [value height msgs [display|] disabled store sent];
    destruct outcome; simpl; rewrite <- ?app_assoc;
    by apply list_lookup_middle.
Qed.

(** X14: a file attached with [handleFileSelect] and then sent with
    [sendMessage] goes out whole but for its line breaks: the input field
    is given the content inside a fenced block tagged with the language,
    the textarea reads it back with every CR LF pair and every other CR
    as one LF, trimming does not change that text, the request carries
    exactly it, and the user message of the transcript is rendered from it
    as markup.  A block without CR is sent byte for byte. *)
Theorem attached_file_sent_as_code_block (b : Dom.browser)
    (outcome : Dom.api_outcome) (name content : string) (st : Shell.state) :
  let st1 := ChatActions.handleFileSelect (Some (name, inr content)) st in
  let p2 := ChatComponent.sendMessage b outcome (Shell.chat st1) in
  exists lang,
    ChatComponent.getLanguageFromFile name = Js.Normal lang /\
    Dom.input_value (Shell.chat st1) = ChatActions.fenced lang content /\
    Js.trim (Dom.value (Shell.chat st1))
    = Js.normalize_newlines (ChatActions.fenced lang content) /\
    Dom.requests p2
    = Dom.requests (Shell.chat st)
      ++ [Js.normalize_newlines (ChatActions.fenced lang content)] /\
    Dom.transcript p2 !! length (Dom.transcript (Shell.chat st))
    = Some {| Dom.className := "message user";
              Dom.body :=
                Dom.InnerHTML
                  (Dom.parseMarkdown b
                     (Js.normalize_newlines
                        (ChatActions.fenced lang content)));
              Dom.followups := [] |} /\
    (forallb (fun c => negb (nat_of_ascii c =? 13))
       (Js.chars (ChatActions.fenced lang content)) = true ->
     Dom.requests p2
     = Dom.requests (Shell.chat st) ++ [ChatActions.fenced lang content]).
Proof.
  intros st1 p2.
  destruct (getLanguageFromFile_returns name) as [lang Hlang].
  exists lang. split; [exact Hlang|].
  assert (Dom.input_value (Shell.chat st1) = ChatActions.fenced lang content
          /\ Dom.requests (Shell.chat st1) = Dom.requests (Shell.chat st)
          /\ Dom.transcript (Shell.chat st1)
             = Dom.transcript (Shell.chat st)) as (Hinput & Hreq & Htr).
  { subst st1. unfold ChatActions.handleFileSelect. rewrite Hlang.
    destruct st as [[value height msgs [d|] disabled store sent] ts secs nv tt];
      done. }
  split; [exact Hinput|].
  assert (Js.trim (Dom.value (Shell.chat st1))
          = Js.normalize_newlines (ChatActions.fenced lang content))
    as Htrim.
  { unfold Dom.value. rewrite Hinput. apply fenced_trim. }
  split; [exact Htrim|].
  assert (Js.trim (Dom.value (Shell.chat st1)) <> EmptyString) as Hne.
  { rewrite Htrim, fenced_shape, normalize_kept by done. discriminate. }
  assert (Dom.requests p2
          = Dom.requests (Shell.chat st)
            ++ [Js.normalize_newlines (ChatActions.fenced lang content)])
    as Hsent.
  { subst p2. by rewrite (sendMessage_sends b outcome _ Hne), Hreq, Htrim. }
  split; [exact Hsent|]. split.
  - subst p2.
    rewrite <- Htr, (sendMessage_user_message b outcome _ Hne), Htrim.
    unfold Ui.message_element. by rewrite fenced_includes_fence.
  - intros Hplain. by rewrite Hsent, (normalize_no_cr _ Hplain).
Qed.

(** X15: [handleFileSelect] never touches the transcript, the requests or
    local storage.  Without a file it does nothing at all; with a file
    that cannot be read it leaves the input field as it is and shows one
    error toast. *)
Theorem handleFileSelect_frame (file : option (string * (string + string)))
    (st : Shell.state) :
  let st' := ChatActions.handleFileSelect file st in
  Dom.transcript (Shell.chat st') = Dom.transcript (Shell.chat st) /\
  Dom.requests (Shell.chat st') = Dom.requests (Shell.chat st) /\
  Dom.local_storage (Shell.chat st') = Dom.local_storage (Shell.chat st) /\
  (file = None -> st' = st) /\
  (forall name error,
     file = Some (name, inl error) ->
     Dom.input_value (Shell.chat st') = Dom.input_value (Shell.chat st) /\
     Shell.toasts st'
     = Shell.toasts st
       ++ [{| Shell.toast_text := "Error loading file: " +:+ error;
              Shell.toast_type := "error";
              Shell.toast_duration := 3000 |}]).
Proof.
  destruct st as [[value height msgs display disabled store sent] ts secs nv tt].
  destruct file as [[name [error|content]]|]; simpl.
  - destruct display; simpl;
      (split; [reflexivity|]); (split; [reflexivity|]);
      (split; [reflexivity|]); (split; [discriminate|]);
      intros name' error' [= -> ->]; done.
  - destruct (getLanguageFromFile_returns name) as [lang Hlang].
    unfold ChatActions.handleFileSelect. rewrite Hlang.
    destruct display; simpl;
      (split; [reflexivity|]); (split; [reflexivity|]);
      (split; [reflexivity|]); (split; discriminate).
  - split; [reflexivity|]. split; [reflexivity|]. split; [reflexivity|].
    split; [reflexivity|discriminate].
Qed.

(** A text whose last byte is solid does not trim to nothing, also after
    its line breaks are normalised. *)
Lemma trim_solid_end (s : string) (d : ascii) :
  Js.solid d = true ->
  Js.trim (Js.normalize_newlines (s +:+ String d EmptyString))
  <> EmptyString.
Proof.
  intros Hd. pose proof (solid_ascii d Hd) as [Hlow Hspace].
  assert ((nat_of_ascii d =? 13) = false /\ nat_of_ascii d <> 10)
    as [Hcr Hlf].
  { unfold Js.is_space in Hspace.
    apply orb_false_iff in Hspace as [Hspace _].
    apply andb_false_iff in Hspace.
    rewrite !Nat.leb_gt in Hspace. rewrite !Nat.eqb_neq. lia. }
  rewrite (normalize_app (String.length s) s _ (le_n _)).
  2: { by intros e t' [= <- _]. }
  rewrite (normalize_other d _ Hcr).
  apply (trim_solid _ d Hd). rewrite chars_append, elem_of_app.
  right. cbn [Js.normalize_newlines Js.chars]. left.
Qed.

(** X16: a successful [captureScreen] appends its note to the text the
    input field reads, so the field is never blank afterwards and the next
    [sendMessage] posts a request; a failed capture leaves the input field
    as it is. *)
Theorem captureScreen_makes_input_sendable (b : Dom.browser)
    (outcome : Dom.api_outcome) (capture : ChatActions.capture_outcome)
    (st : Shell.state) :
  let p' := Shell.chat (ChatActions.captureScreen capture st) in
  match capture with
  | ChatActions.Captured =>
      Dom.input_value p'
      = Dom.value (Shell.chat st) +:+ ChatActions.LF
          +:+ "[Screen captured and analyzed]" /\
      Js.trim (Dom.value p') <> EmptyString /\
      Dom.requests (ChatComponent.sendMessage b outcome p')
      = Dom.requests (Shell.chat st) ++ [Js.trim (Dom.value p')]
  | _ => Dom.input_value p' = Dom.input_value (Shell.chat st)
  end.
Proof.
  destruct st as [[value height msgs display disabled store sent] ts secs nv tt].
  destruct capture.
  - set (text := Js.normalize_newlines value +:+ ChatActions.LF
                   +:+ "[Screen captured and analyzed]").
    set (q := Shell.chat (ChatActions.captureScreen ChatActions.Captured _)).
    assert (Dom.input_value q = text /\ Dom.requests q = sent)
      as [Hq Hsent].
    { subst q. by destruct display. }
    assert (Js.trim (Dom.value q) <> EmptyString) as Hne.
    { unfold Dom.value. rewrite Hq.
      assert (text
              = (Js.normalize_newlines value +:+ ChatActions.LF
                   +:+ "[Screen captured and analyzed")
                  +:+ String "]" EmptyString) as ->.
      { subst text. rewrite !string_app_assoc. reflexivity. }
      by apply trim_solid_end. }
    cbv zeta. split; [exact Hq|]. split; [exact Hne|].
    by rewrite (sendMessage_sends b outcome q Hne), Hsent.
  - by destruct display.
  - by destruct display.
Qed.

(** ** [analyzeProject] *)

(** X17: [analyzeProject] with a path that trims to the empty string posts
    nothing: it shows one warning toast and leaves results and spinner as
    they are.  With any other path it posts exactly one request carrying
    the trimmed path, shows exactly one toast, ends with the spinner
    hidden and replaces the results only when the call succeeded and the
    results container exists.  The path field is never changed. *)
Theorem analyzeProject_requests (o : AnalyzerActions.outcome)
    (st : AnalyzerActions.state) :
  let path := Js.trim (AnalyzerActions.project_path st) in
  let st' := AnalyzerActions.analyzeProject o st in
  AnalyzerActions.project_path st' = AnalyzerActions.project_path st /\
  (path = EmptyString ->
   AnalyzerActions.requests st' = AnalyzerActions.requests st /\
   AnalyzerActions.results st' = AnalyzerActions.results st /\
   AnalyzerActions.spinner st' = AnalyzerActions.spinner st /\
   AnalyzerActions.toasts st'
   = AnalyzerActions.toasts st
     ++ [{| Shell.toast_text := "Please enter a project path";
            Shell.toast_type := "warning";
            Shell.toast_duration := 3000 |}]) /\
  (path <> EmptyString ->
   AnalyzerActions.requests st' = AnalyzerActions.requests st ++ [path] /\
   length (AnalyzerActions.toasts st')
   = S (length (AnalyzerActions.toasts st)) /\
   AnalyzerActions.spinner st'
   = (fun _ => "none") <$> AnalyzerActions.spinner st /\
   AnalyzerActions.results st'
   = match o with
     | AnalyzerActions.Analyzed r =>
         if AnalyzerActions.container st
         then Analyzer.displayProjectAnalysis true r
         else AnalyzerActions.results st
     | _ => AnalyzerActions.results st
     end).
Proof.
  unfold AnalyzerActions.analyzeProject.
  destruct (Js.trim (AnalyzerActions.project_path st)) as [|ch rest] eqn:E.
  - simpl. split; [reflexivity|]. split; [done|]. intros Hne. done.
  - destruct st as [path [|] res [d|] ts sent]; destruct o; simpl;
      (split; [reflexivity|]); (split; [discriminate|]); intros _;
      rewrite ?length_app; simpl; (split; [reflexivity|]);
      (split; [lia|]); done.
Qed.

(** ** [switchPage] *)

Lemma hide_id (e : Shell.section_el) : Shell.el_id (Shell.hide e) = Shell.el_id e.
Proof. unfold Shell.hide. by destruct (Shell.is_page e). Qed.

Lemma hide_is_page (e : Shell.section_el) :
  Shell.is_page (Shell.hide e) = Shell.is_page e.
Proof. unfold Shell.hide. by destruct (Shell.is_page e) eqn:E. Qed.

Lemma hide_display (e : Shell.section_el) :
  Shell.is_page (Shell.hide e) = true -> Shell.display (Shell.hide e) = "none".
Proof.
  unfold Shell.hide. destruct (Shell.is_page e) eqn:E; [done|].
  intros Hpage. congruence.
Qed.

(** With distinct ids and every page hidden, showing the element with the
    id leaves that page, and no other, displayed. *)
Lemma show_first_only (id : string) (l : list Shell.section_el) :
  NoDup (Shell.el_id <$> l) ->
  Forall (fun e => Shell.is_page e = true -> Shell.display e = "none") l ->
  forall e, e ∈ Shell.show_first id l -> Shell.is_page e = true ->
            (Shell.display e = "block" <-> Shell.el_id e = id).
Proof.
  induction l as [|e0 rest IH]; intros Hnodup Hhidden e He Hpage;
    simpl in He.
  - inversion He.
  - rewrite fmap_cons in Hnodup. apply NoDup_cons in Hnodup as [Hfresh Hnodup].
    apply Forall_cons in Hhidden as [Hhidden0 Hhidden].
    destruct (String.eqb_spec (Shell.el_id e0) id) as [Heq|Hneq].
    + apply elem_of_cons in He as [->|He]; [done|].
      assert (Shell.el_id e <> id) as Hother.
      { intros Hid. apply Hfresh. rewrite Heq, <- Hid.
        by apply list_elem_of_fmap_2. }
      rewrite Forall_forall in Hhidden.
      rewrite (Hhidden e He Hpage). split; [discriminate|done].
    + apply elem_of_cons in He as [->|He]; [|by apply IH].
      rewrite (Hhidden0 Hpage). split; [discriminate|done].
Qed.

(** X18: [switchPage], for a page name that can be written into its
    selector.  When no element has the id of the requested page,
    every page is hidden and navigation and title stay as they were; when
    the ids are distinct and the element exists, exactly the page with
    that id is displayed afterwards.  The chat and the toasts are never
    affected. *)
Theorem switchPage_shows_one_page (pageName : string) (st : Shell.state) :
  Shell.selector_safe pageName = true ->
  NoDup (Shell.el_id <$> Shell.sections st) ->
  let id := pageName +:+ "-page" in
  let st' := Shell.switchPage pageName st in
  Shell.chat st' = Shell.chat st /\
  Shell.toasts st' = Shell.toasts st /\
  (id ∉ Shell.el_id <$> Shell.sections st ->
   Shell.nav st' = Shell.nav st /\
   Shell.title st' = Shell.title st /\
   Forall (fun e => Shell.is_page e = true -> Shell.display e = "none")
     (Shell.sections st')) /\
  (id ∈ Shell.el_id <$> Shell.sections st ->
   forall e, e ∈ Shell.sections st' -> Shell.is_page e = true ->
             (Shell.display e = "block" <-> Shell.el_id e = id)).
Proof.
  intros _ Hnodup id st'. subst st'. unfold Shell.switchPage. fold id.
  assert (Forall (fun e => Shell.is_page e = true -> Shell.display e = "none")
            (Shell.hide <$> Shell.sections st)) as Hhidden.
  { apply Forall_fmap, Forall_forall. intros e _. exact (hide_display e). }
  assert (Shell.el_id <$> (Shell.hide <$> Shell.sections st)
          = Shell.el_id <$> Shell.sections st) as Hids.
  { rewrite <- list_fmap_compose. apply list_fmap_ext.
    intros i e _. apply hide_id. }
  destruct (existsb _ (Shell.hide <$> Shell.sections st)) eqn:Hfound; simpl.
  - split; [reflexivity|]. split; [reflexivity|]. split.
    + intros Hnot. exfalso. apply Hnot. rewrite <- Hids.
      apply existsb_exists in Hfound as (e & He & Heq).
      apply String.eqb_eq in Heq. rewrite <- Heq.
      apply list_elem_of_fmap_2. by apply list_elem_of_In.
    + intros _. apply show_first_only; [by rewrite Hids|exact Hhidden].
  - split; [reflexivity|]. split; [reflexivity|]. split; [done|].
    intros Hin. exfalso. rewrite <- Hids in Hin.
    apply list_elem_of_fmap in Hin as (e & Heq & He).
    assert (existsb (fun e => String.eqb (Shell.el_id e) id)
              (Shell.hide <$> Shell.sections st) = true) as Hyes.
    { apply existsb_exists. exists e. split; [by apply list_elem_of_In|].
      by apply String.eqb_eq. }
    congruence.
Qed.

Lemma switchPage_shows_one_page_witness :
  Shell.display <$> Shell.sections (Shell.switchPage "chat" sample_shell)
  = ["block"; "none"; "flex"] /\
  (forall e, e ∈ Shell.sections (Shell.switchPage "chat" sample_shell) ->
             Shell.is_page e = true ->
             (Shell.display e = "block" <-> Shell.el_id e = "chat-page")).
Proof.
  split; [reflexivity|].
  assert (NoDup (Shell.el_id <$> Shell.sections sample_shell)) as Hnodup.
  { simpl. repeat constructor; intros Hin; apply list_elem_of_In in Hin;
      simpl in Hin; repeat (destruct Hin as [Hin|Hin]; [discriminate|]);
      done. }
  destruct (switchPage_shows_one_page "chat" sample_shell eq_refl Hnodup)
    as (_ & _ & _ & Hshown).
  apply Hshown. simpl. left.
Defined.

(** ** [MonitorComponent] *)

Lemma string_app_empty (s t : string) :
  s +:+ t = EmptyString <-> s = EmptyString /\ t = EmptyString.
Proof.
  destruct s as [|c s].
  - change (t = EmptyString <-> EmptyString = EmptyString /\ t = EmptyString).
    split; [intros Ht; by split|by intros [_ Ht]].
  - split; [discriminate|]. by intros [].
Qed.

Lemma getIssuesString_from (r : Monitor.results) (acc : string) :
  fold_left (fun issuesStr entry => issuesStr +:+ Monitor.file_block entry)
    r acc
  = acc +:+ Js.concat (Monitor.file_block <$> r).
Proof.
  revert acc. induction r as [|entry r IH]; intros acc; simpl.
  - by rewrite string_app_nil_r.
  - rewrite IH. by rewrite string_app_assoc.
Qed.

Lemma totalIssues_from (r : Monitor.results) (acc : nat) :
  fold_left (fun total a => total + length (default [] a.2)) r acc
  = acc + Monitor.totalIssues r.
Proof.
  unfold Monitor.totalIssues.
  revert acc. induction r as [|entry r IH]; intros acc; simpl; [lia|].
  rewrite IH, (IH (length _)). lia.
Qed.

(** A file contributes text exactly when it has issues. *)
Lemma file_block_empty (entry : string * option (list Monitor.issue)) :
  Monitor.file_block entry = EmptyString <-> length (default [] entry.2) = 0.
Proof.
  unfold Monitor.file_block. destruct entry as [file [[|i l]|]]; simpl; done.
Qed.

Lemma file_blocks_empty (r : Monitor.results) :
  Js.concat (Monitor.file_block <$> r) = EmptyString
  <-> Monitor.totalIssues r = 0.
Proof.
  induction r as [|entry r IH]; [done|].
  unfold Monitor.totalIssues. cbn [fold_left fmap list_fmap Js.concat foldr].
  rewrite totalIssues_from.
  rewrite string_app_empty, IH, file_block_empty. lia.
Qed.

(** X19: [getIssuesString] is empty exactly when the counter of
    [displayAnalysis] is zero: the button that calls [askAgentToFix] is
    rendered exactly when [askAgentToFix] has something to send. *)
Theorem getIssuesString_empty_iff_no_issues (r : Monitor.results) :
  Monitor.getIssuesString r = EmptyString <-> Monitor.totalIssues r = 0.
Proof.
  unfold Monitor.getIssuesString. rewrite getIssuesString_from.
  change (EmptyString +:+ ?x) with x.
  apply file_blocks_empty.
Qed.

(** The question starts with a letter and ends with a question mark. *)
Lemma fix_request_shape (issues : string) :
  Monitor.fix_request issues
  = String "I"
      ((" have some code issues detected by the monitor:" +:+ Monitor.LF
          +:+ Monitor.LF +:+ issues +:+ Monitor.LF +:+ Monitor.LF
          +:+ "Can you help me fix these")
         +:+ String "?" EmptyString).
Proof.
  unfold Monitor.fix_request. rewrite !string_app_assoc. reflexivity.
Qed.

Lemma fix_request_trim (issues : string) :
  Js.trim (Js.normalize_newlines (Monitor.fix_request issues))
  = Js.normalize_newlines (Monitor.fix_request issues).
Proof. rewrite fix_request_shape. by apply trim_normalize_kept. Qed.

(** [window.chatComponent.sendMessage] does nothing on a blank input or
    while an answer is streaming. *)
Lemma window_send_ignored (b : Dom.browser) (outcome : Dom.api_outcome)
    (w : Window.chatComponent) (p : Dom.page) :
  Js.trim (Dom.value p) = EmptyString \/ Window.streaming w = true ->
  Window.sendMessage b outcome w p = p.
Proof.
  intros Hskip.
  destruct w as [|c picked]; cbn [Window.sendMessage Window.streaming] in *.
  - destruct Hskip as [Hblank|Hbusy]; [|discriminate].
    unfold ChatComponent.sendMessage. by rewrite Hblank.
  - unfold ChatComponentEnhanced.sendMessage.
    destruct Hskip as [->| ->]; [reflexivity|].
    by rewrite orb_true_r.
Qed.

(** Otherwise it posts the trimmed input and empties the field. *)
Lemma window_send_posts (b : Dom.browser) (outcome : Dom.api_outcome)
    (w : Window.chatComponent) (p : Dom.page) :
  Js.trim (Dom.value p) <> EmptyString -> Window.streaming w = false ->
  Dom.requests (Window.sendMessage b outcome w p)
  = Dom.requests p ++ [Js.trim (Dom.value p)] /\
  Dom.input_value (Window.sendMessage b outcome w p) = EmptyString.
Proof.
  intros Hne Hidle.
  destruct w as [|c picked]; cbn [Window.sendMessage Window.streaming] in *.
  - split; [by apply sendMessage_sends|].
    unfold ChatComponent.sendMessage.
    destruct (Js.trim (Dom.value p)) as [|ch rest] eqn:E; [done|].
    destruct p as [value height msgs [d|] disabled store sent];
      destruct outcome; reflexivity.
  - unfold ChatComponentEnhanced.sendMessage. rewrite Hidle.
    destruct (Js.trim (Dom.value p)) as [|ch rest] eqn:E; [done|].
    destruct c as [streaming current].
    destruct p as [value height msgs display disabled store sent].
    cbn [negb Js.truthy orb].
    unfold ChatComponentEnhanced.createMessageElement,
      ChatComponentEnhanced.getStreamingResponse,
      ChatComponentEnhanced.showFollowUpSuggestions,
      ChatComponentEnhanced.set_current_body,
      ChatComponentEnhanced.saveChatHistory,
      Ui.addChatMessage, Ui.showLoading, Ui.hideLoading.
    destruct display as [d|], outcome as [response|msg|msg];
      cbn [Dom.transcript Dom.set_transcript Dom.set_input Dom.spinner
           Dom.set_spinner Dom.set_send_disabled Dom.set_requests
           Dom.set_storage Dom.requests Dom.input_value Dom.send_disabled
           Dom.local_storage Dom.chatHistory Dom.input_height
           ChatComponentEnhanced.currentMessageElement
           ChatComponentEnhanced.isStreaming fst snd];
      rewrite ?lookup_appended;
      cbn [Dom.transcript Dom.set_transcript Dom.className Dom.followups
           Dom.body];
      rewrite ?insert_appended, ?lookup_appended;
      cbn [Dom.transcript Dom.set_transcript Dom.set_spinner Dom.spinner
           Dom.set_send_disabled Dom.set_requests Dom.set_storage
           Dom.requests Dom.input_value Dom.send_disabled Dom.local_storage
           Dom.chatHistory Dom.className Dom.followups Dom.body fst snd
           ChatComponentEnhanced.currentMessageElement
           ChatComponentEnhanced.isStreaming];
      done.
Qed.

(** X20: [askAgentToFix].  When no monitored file has issues it shows one
    toast and sends nothing: chat, layout and input field stay as they
    are.  Otherwise it switches to the chat page and writes the fixed
    question around the issue list into the input field, whatever the
    field held before; the chat component installed, of either class,
    then posts one request whose message is that text as the textarea
    reads it (line breaks normalised), unaltered by trimming, and empties
    the field, unless it is an enhanced component still streaming an
    answer, which posts nothing and leaves the question in the field. *)
Theorem askAgentToFix_sends_issue_list (b : Dom.browser)
    (outcome : Dom.api_outcome) (w : Window.chatComponent)
    (r : Monitor.results) (st : Shell.state) :
  let st' := Monitor.askAgentToFix (Window.sendMessage b outcome w) r st in
  let question := Monitor.fix_request (Monitor.getIssuesString r) in
  (Monitor.totalIssues r = 0 ->
   st' = Shell.showToast "No issues to fix" "info" 3000 st) /\
  (0 < Monitor.totalIssues r ->
   Js.trim (Js.normalize_newlines question)
   = Js.normalize_newlines question /\
   Shell.sections st' = Shell.sections (Shell.switchPage "chat" st) /\
   Shell.toasts st' = Shell.toasts st /\
   (Window.streaming w = false ->
    Dom.requests (Shell.chat st')
    = Dom.requests (Shell.chat st) ++ [Js.normalize_newlines question] /\
    Dom.input_value (Shell.chat st') = EmptyString) /\
   (Window.streaming w = true ->
    Dom.requests (Shell.chat st') = Dom.requests (Shell.chat st) /\
    Dom.input_value (Shell.chat st') = question)).
Proof.
  unfold Monitor.askAgentToFix.
  assert (Monitor.getIssuesString r = EmptyString
          <-> Monitor.totalIssues r = 0) as Hiff.
  { unfold Monitor.getIssuesString. rewrite getIssuesString_from.
    apply file_blocks_empty. }
  destruct (Monitor.getIssuesString r) as [|ch rest] eqn:E.
  - simpl. split; [done|]. intros Hpos.
    assert (Monitor.totalIssues r = 0) by (by apply Hiff). lia.
  - cbn [negb Js.truthy]. split.
    { intros Hzero. apply Hiff in Hzero. discriminate. }
    intros _.
    set (issues := String ch rest).
    set (p := Dom.set_input (Monitor.fix_request issues) _ _).
    assert (Js.trim (Dom.value p)
            = Js.normalize_newlines (Monitor.fix_request issues))
      as Htrim by apply fix_request_trim.
    assert (Js.trim (Dom.value p) <> EmptyString) as Hne.
    { rewrite Htrim, fix_request_shape, normalize_kept by done.
      discriminate. }
    assert (Shell.chat (Shell.switchPage "chat" st) = Shell.chat st
            /\ Shell.toasts (Shell.switchPage "chat" st) = Shell.toasts st)
      as [Hchat Htoasts].
    { unfold Shell.switchPage. by destruct (existsb _ _). }
    assert (Dom.requests p = Dom.requests (Shell.chat st)) as Hsent.
    { subst p. cbn [Dom.requests Dom.set_input]. by rewrite Hchat. }
    cbn [Shell.chat Shell.set_chat Shell.sections Shell.toasts].
    split; [apply fix_request_trim|].
    split; [reflexivity|]. split; [exact Htoasts|]. split.
    + intros Hidle.
      destruct (window_send_posts b outcome w p Hne Hidle) as [Hreq Hin].
      by rewrite Hreq, Hin, Htrim, Hsent.
    + intros Hbusy.
      rewrite (window_send_ignored b outcome w p (or_intror Hbusy)).
      split; [exact Hsent|reflexivity].
Qed.

Example getIssuesString_sample :
  Monitor.getIssuesString sample_results
  = Monitor.LF +:+ "**src/app.py:**" +:+ Monitor.LF
      +:+ "- Line 4: hardcoded secret (critical)" +:+ Monitor.LF
      +:+ "- Line null: unused import (info)" +:+ Monitor.LF /\
  Monitor.totalIssues sample_results = 2.
Proof. vm_compute. done. Qed.

(** ** [app.js] *)

(** X21: on [beforeunload] the chat history is written only when settings
    were stored with [autoSave] on and the chat component exists.  When no
    settings were ever stored nothing is written, although
    [loadChatHistory] reads the same store as [autoSave] on and replays
    the history it finds. *)
Theorem beforeunload_needs_stored_settings (b : Dom.browser)
    (present : bool) (p : Dom.page) :
  (Dom.chatSettings (Dom.local_storage p) = None ->
   App.beforeunload b present p = p /\
   forall h, default [] (Dom.chatHistory (Dom.local_storage p)) = h ->
             h <> [] ->
             Dom.transcript (ChatComponent.loadChatHistory b p)
             = (fun msg =>
                  Ui.message_element b (Dom.content_text msg) (Dom.role msg))
                 <$> h) /\
  (forall s, Dom.chatSettings (Dom.local_storage p) = Some s ->
   App.beforeunload b present p
   = if Dom.autoSave s && present then ChatComponent.saveChatHistory b p
     else p) /\
  (App.beforeunload b present p <> p ->
   exists s, Dom.chatSettings (Dom.local_storage p) = Some s /\
             Dom.autoSave s = true /\ present = true).
Proof.
  unfold App.beforeunload, ChatComponent.loadChatHistory.
  destruct (Dom.chatSettings (Dom.local_storage p)) as [s|] eqn:E.
  - split; [discriminate|]. split; [by intros ? [= <-]|].
    destruct (Dom.autoSave s) eqn:Hs, present; simpl; try done.
    intros _. exists s. done.
  - split; [|split; [discriminate|done]].
    intros _. split; [reflexivity|]. intros h Hh Hne. simpl.
    rewrite Hh. destruct h as [|msg h]; [done|].
    rewrite replay_page. reflexivity.
Qed.

(** X22: [App.sendMessage(message)] discards whatever the input field held:
    the field is overwritten with [message] before the chat component
    installed, of either class, sends.  A [message] that the textarea
    reads back blank, or one given while an enhanced component streams an
    answer, posts nothing but still replaces the draft; any other
    [message] is posted as the textarea reads it (line breaks normalised),
    trimmed, and leaves the field empty.  Without a chat component nothing
    happens. *)
Theorem app_sendMessage_overwrites_draft (b : Dom.browser)
    (outcome : Dom.api_outcome) (w : Window.chatComponent)
    (message : string) (p : Dom.page) :
  let p' :=
    App.sendMessage (Some (Window.sendMessage b outcome w)) message p in
  let text := Js.trim (Js.normalize_newlines message) in
  (text = EmptyString \/ Window.streaming w = true ->
   p' = Dom.set_input message (Dom.input_height p) p /\
   Dom.requests p' = Dom.requests p) /\
  (text <> EmptyString -> Window.streaming w = false ->
   Dom.requests p' = Dom.requests p ++ [text] /\
   Dom.input_value p' = EmptyString) /\
  App.sendMessage None message p = p.
Proof.
  unfold App.sendMessage.
  set (q := Dom.set_input message (Dom.input_height p) p).
  assert (Dom.value q = Js.normalize_newlines message
          /\ Dom.requests q = Dom.requests p) as [Hvalue Hsent].
  { subst q. by destruct p. }
  cbv zeta. split; [|split; [|reflexivity]].
  - intros Hskip. rewrite <- Hvalue in Hskip.
    by rewrite (window_send_ignored b outcome w q Hskip).
  - intros Hne Hidle. rewrite <- Hvalue in Hne.
    destruct (window_send_posts b outcome w q Hne Hidle) as [Hreq Hin].
    by rewrite Hreq, Hin, Hvalue, Hsent.
Qed.

(** ** [clearHistory] *)

(** X23: [clearHistory] resets the transcript to the single welcome message
    and removes the stored history, keeping the settings; a following
    [loadChatHistory] therefore changes nothing, and a following
    [saveChatHistory] stores the welcome message, a system message, as one
    record with role ['assistant']. *)
Theorem clearHistory_resets_chat (b : Dom.browser) (welcome : string)
    (st : Shell.state) :
  let p' := Shell.chat (ChatActions.clearHistory welcome st) in
  Dom.className <$> Dom.transcript p' = ["message system"] /\
  Dom.chatHistory (Dom.local_storage p') = None /\
  Dom.chatSettings (Dom.local_storage p')
  = Dom.chatSettings (Dom.local_storage (Shell.chat st)) /\
  ChatComponent.loadChatHistory b p' = p' /\
  Dom.chatHistory (Dom.local_storage (ChatComponent.saveChatHistory b p'))
  = Some [{| Dom.role := "assistant";
             Dom.content_text := Dom.html_text b welcome;
             Dom.timestamp := Dom.clock b 0 |}].
Proof.
  destruct st as [[value height msgs display disabled store sent] ts secs nv tt].
  simpl. split; [reflexivity|]. split; [reflexivity|].
  split; [reflexivity|]. split; [|reflexivity].
  unfold ChatComponent.loadChatHistory. simpl.
  by destruct (negb _).
Qed.
